(** * City planner: scoring model, API layer and solver wiring

    A shallow embedding of the Python sources [domain.py], [constraints.py],
    [app.py], [solve.py] and [benchmark.py], followed by the properties
    proved of it.

    Conventions of the embedding.
    - Python [int] is [Z].  A finite Python [float] is a real number [R],
      without rounding and without overflow; the module [Ieee] has the floats
      with infinities and NaN.  Python [str] is [string].
    - A value decoded from JSON is a [pyval].
    - A Python exception is a [Raise] result; [x <- c ;; k] sequences
      statements that may raise.
    - A [for] loop is [for_loop], a left-to-right fold that stops at the first
      exception. *)

From Stdlib Require Import List ZArith Reals String Bool Lia Lra Permutation.

#[global] Set Warnings "-register-all".
Import ListNotations.
Open Scope string_scope.
Open Scope list_scope.

(** ** Python values, exceptions and builtins *)

Module Py.

Inductive pyval : Type :=
| PNone
| PBool (b : bool)
| PInt (z : Z)
| PFloat (r : R)
| PStr (s : string)
| PList (l : list pyval)
| PDict (d : list (string * pyval)).

Inductive pyerr : Type :=
| KeyError (k : string)
| IndexError
| ValueError
| TypeError
| AttributeError.

Inductive result (A : Type) : Type :=
| Ok (a : A)
| Raise (e : pyerr).

Arguments Ok {A} a.
Arguments Raise {A} e.

Definition bind {A B : Type} (c : result A) (k : A -> result B) : result B :=
  match c with
  | Ok a => k a
  | Raise e => Raise e
  end.

Definition is_ok {A : Type} (c : result A) : bool :=
  match c with Ok _ => true | Raise _ => false end.

(** [for x in xs: s = body(s, x)] *)
Fixpoint for_loop {S A : Type} (xs : list A) (body : S -> A -> result S) (s : S)
  : result S :=
  match xs with
  | [] => Ok s
  | x :: xs' => bind (body s x) (for_loop xs' body)
  end.

(** [[f(x) for x in xs]] *)
Fixpoint comprehension {A B : Type} (f : A -> result B) (xs : list A)
  : result (list B) :=
  match xs with
  | [] => Ok []
  | x :: xs' => bind (f x) (fun y => bind (comprehension f xs') (fun ys => Ok (y :: ys)))
  end.

(** [range(a, b)] *)
Definition range (a b : nat) : list nat := seq a (b - a).

(** [xs[i]] on a list, for a non-negative index. *)
Definition getitem {A : Type} (xs : list A) (i : nat) : result A :=
  match nth_error xs i with
  | Some x => Ok x
  | None => Raise IndexError
  end.

(** Truth value of an optional object whose class defines neither [__bool__]
  nor [__len__]: only [None] is false. *)
Definition truthy {A : Type} (o : option A) : bool :=
  match o with Some _ => true | None => false end.

(** The binding of a key in a decoded dict (the first one of the association
  list; a decoded dict has pairwise distinct keys). *)
Fixpoint lookup (d : list (string * pyval)) (k : string) : option pyval :=
  match d with
  | [] => None
  | (k', v) :: d' => if String.eqb k' k then Some v else lookup d' k
  end.

(** [v[k]] for a string key [k]. *)
Definition subscript (v : pyval) (k : string) : result pyval :=
  match v with
  | PDict d => match lookup d k with Some x => Ok x | None => Raise (KeyError k) end
  | _ => Raise TypeError
  end.

(** [v.get(k, default)]; only dicts have the method. *)
Definition get (v : pyval) (k : string) (default : pyval) : result pyval :=
  match v with
  | PDict d => match lookup d k with Some x => Ok x | None => Ok default end
  | _ => Raise AttributeError
  end.

Fixpoint chars (s : string) : list pyval :=
  match s with
  | EmptyString => []
  | String c s' => PStr (String c EmptyString) :: chars s'
  end.

(** The items a [for] statement draws from a decoded value. *)
Definition iter (v : pyval) : result (list pyval) :=
  match v with
  | PList l => Ok l
  | PStr s => Ok (chars s)
  | PDict d => Ok (map (fun kv => PStr (fst kv)) d)
  | _ => Raise TypeError
  end.

(** Truncation towards zero, as [int] does on a float. *)
Definition trunc (r : R) : Z :=
  if Rle_dec 0 r then Int_part r else (- Int_part (- r))%Z.

Section Conversions.
(** Parsing of numerals held in strings is left to the interpreter. *)
Variable int_of_str : string -> option Z.
Variable float_of_str : string -> option R.

(** [int(v)] *)
Definition int (v : pyval) : result Z :=
  match v with
  | PInt z => Ok z
  | PBool b => Ok (if b then 1%Z else 0%Z)
  | PFloat r => Ok (trunc r)
  | PStr s => match int_of_str s with Some z => Ok z | None => Raise ValueError end
  | _ => Raise TypeError
  end.

(** [float(v)] *)
Definition float (v : pyval) : result R :=
  match v with
  | PInt z => Ok (IZR z)
  | PBool b => Ok (if b then 1%R else 0%R)
  | PFloat r => Ok r
  | PStr s => match float_of_str s with Some r => Ok r | None => Raise ValueError end
  | _ => Raise TypeError
  end.
End Conversions.

Definition pyval_eq_dec : forall a b : pyval, {a = b} + {a <> b}.
Proof.
  fix IH 1.
  decide equality.
  - apply Bool.bool_dec.
  - apply Z.eq_dec.
  - apply Req_dec_T.
  - apply string_dec.
  - apply list_eq_dec; exact IH.
  - apply list_eq_dec. intros [k1 v1] [k2 v2].
  destruct (string_dec k1 k2) as [->|Hk]; [|right; congruence].
  destruct (IH v1 v2) as [->|Hv]; [left; reflexivity|right; congruence].
Defined.

End Py.

Notation "x <- c ;; k" := (Py.bind c (fun x => k))
  (at level 61, c at next level, right associativity).

(** ** domain.py *)

Module BuildingType.

Inductive t : Type := HOUSE | SCHOOL | PHARMACY | HOSPITAL | SHOP | OFFICE.

Definition value (b : t) : string :=
  match b with
  | HOUSE => "HOUSE" | SCHOOL => "SCHOOL" | PHARMACY => "PHARMACY"
  | HOSPITAL => "HOSPITAL" | SHOP => "SHOP" | OFFICE => "OFFICE"
  end.

Definition members : list t := [HOUSE; SCHOOL; PHARMACY; HOSPITAL; SHOP; OFFICE].

Definition eqb (a b : t) : bool :=
  match a, b with
  | HOUSE, HOUSE | SCHOOL, SCHOOL | PHARMACY, PHARMACY
  | HOSPITAL, HOSPITAL | SHOP, SHOP | OFFICE, OFFICE => true
  | _, _ => false
  end.

Definition eq_dec : forall a b : t, {a = b} + {a <> b}.
Proof. decide equality. Defined.

(** [BuildingType(v)]: the member whose value is [v]. *)
Definition of_value (v : Py.pyval) : Py.result t :=
  match v with
  | Py.PStr s =>
      match find (fun b => String.eqb (value b) s) members with
      | Some b => Py.Ok b
      | None => Py.Raise Py.ValueError
      end
  | _ => Py.Raise Py.ValueError
  end.

End BuildingType.

Module ZoneType.

Inductive t : Type := RESIDENTIAL | COMMERCIAL | MIXED | INDUSTRIAL | RESTRICTED.

Definition value (z : t) : string :=
  match z with
  | RESIDENTIAL => "RESIDENTIAL" | COMMERCIAL => "COMMERCIAL" | MIXED => "MIXED"
  | INDUSTRIAL => "INDUSTRIAL" | RESTRICTED => "RESTRICTED"
  end.

Definition members : list t := [RESIDENTIAL; COMMERCIAL; MIXED; INDUSTRIAL; RESTRICTED].

Definition eqb (a b : t) : bool :=
  match a, b with
  | RESIDENTIAL, RESIDENTIAL | COMMERCIAL, COMMERCIAL | MIXED, MIXED
  | INDUSTRIAL, INDUSTRIAL | RESTRICTED, RESTRICTED => true
  | _, _ => false
  end.

Definition eq_dec : forall a b : t, {a = b} + {a <> b}.
Proof. decide equality. Defined.

(** [ZoneType(v)] *)
Definition of_value (v : Py.pyval) : Py.result t :=
  match v with
  | Py.PStr s =>
      match find (fun z => String.eqb (value z) s) members with
      | Some z => Py.Ok z
      | None => Py.Raise Py.ValueError
      end
  | _ => Py.Raise Py.ValueError
  end.

End ZoneType.

Module Location.

(** [name] is whatever the caller passes: the builders hand over the decoded
    JSON value unconverted. *)
Record t : Type := Build {
  id : Z;
  name : Py.pyval;
  x : R;
  y : R;
  zone : ZoneType.t;
  cost_factor : R;
  allowed_building_types : list BuildingType.t
}.

Definition eq_dec : forall a b : t, {a = b} + {a <> b}.
Proof.
  decide equality.
  - apply list_eq_dec, BuildingType.eq_dec.
  - apply Req_dec_T.
  - apply ZoneType.eq_dec.
  - apply Req_dec_T.
  - apply Req_dec_T.
  - apply Py.pyval_eq_dec.
  - apply Z.eq_dec.
Defined.

(** The dataclass-generated [__eq__]: two locations are equal when all their
    fields are. *)
Definition eqb (a b : t) : bool := if eq_dec a b then true else false.

End Location.

Module BuildingPlacement.

Record t : Type := Build {
  id : Z;
  building_type : BuildingType.t;
  location : option Location.t
}.

End BuildingPlacement.

Module CityPlanSolution.

(** [Score] is the solver's score class; [score] stays [None] until a solver
    fills it in. *)
Record t (Score : Type) : Type := Build {
  id : Py.pyval;
  location_list : list Location.t;
  building_placement_list : list BuildingPlacement.t;
  score : option Score
}.

Arguments Build {Score}.
Arguments id {Score}.
Arguments location_list {Score}.
Arguments building_placement_list {Score}.
Arguments score {Score}.

End CityPlanSolution.

(** [a == b] on two optional locations ([None] equals only [None]). *)
Definition location_eq (a b : option Location.t) : bool :=
  match a, b with
  | Some l1, Some l2 => Location.eqb l1 l2
  | None, None => true
  | _, _ => false
  end.

(** [o is not None] *)
Definition is_not_None {A : Type} (o : option A) : bool :=
  match o with Some _ => true | None => false end.

(** [x in xs] *)
Definition contains {A : Type} (eqb : A -> A -> bool) (x : A) (xs : list A) : bool :=
  existsb (eqb x) xs.

(** ** constraints.py *)

Module Constraints.

Import BuildingType ZoneType.

(** [math.dist] on two points of the plane with finite coordinates (the module
    [Ieee] below has the function on all floats). *)
Definition dist (p q : R * R) : R :=
  sqrt ((fst p - fst q) * (fst p - fst q) + (snd p - snd q) * (snd p - snd q)).

Definition calc_distance (bp1 bp2 : BuildingPlacement.t) : Py.result R :=
  match BuildingPlacement.location bp1 with
  | None => Py.Raise Py.AttributeError
  | Some l1 =>
      match BuildingPlacement.location bp2 with
      | None => Py.Raise Py.AttributeError
      | Some l2 =>
          Py.Ok (dist (Location.x l1, Location.y l1) (Location.x l2, Location.y l2))
      end
  end.

Definition is_building_type_allowed_in_zone (building_type : BuildingType.t)
  (zone : ZoneType.t) : bool :=
  if ZoneType.eqb zone RESTRICTED then false
  else if BuildingType.eqb building_type HOUSE
          && contains ZoneType.eqb zone [RESIDENTIAL; MIXED; COMMERCIAL] then true
  else if BuildingType.eqb building_type OFFICE
          && contains ZoneType.eqb zone [COMMERCIAL; MIXED] then true
  else if BuildingType.eqb building_type SHOP
          && contains ZoneType.eqb zone [COMMERCIAL; MIXED] then true
  else if BuildingType.eqb building_type SCHOOL
          && contains ZoneType.eqb zone [RESIDENTIAL; MIXED] then true
  else if BuildingType.eqb building_type HOSPITAL
          && contains ZoneType.eqb zone [RESIDENTIAL; MIXED] then true
  else if BuildingType.eqb building_type PHARMACY
          && contains ZoneType.eqb zone [RESIDENTIAL; MIXED; COMMERCIAL] then true
  else false.

(** *** The constraint-stream calls the file makes

    A constraint factory gives access to the planning entities of the working
    solution.  [for_each] streams them; [for_each_unique_pair] streams every
    pair of them in which the first has the smaller planning id, so each
    unordered pair of entities with distinct ids is streamed once.  The
    framework also keeps unassigned entities out of both streams; every filter
    below tests for [None] itself, so the streams here carry all entities. *)

Definition ConstraintFactory : Type := list BuildingPlacement.t.

Definition for_each (cf : ConstraintFactory) : list BuildingPlacement.t := cf.

Definition for_each_unique_pair (cf : ConstraintFactory)
  : list (BuildingPlacement.t * BuildingPlacement.t) :=
  flat_map (fun a =>
    flat_map (fun b =>
      if (BuildingPlacement.id a <? BuildingPlacement.id b)%Z then [(a, b)] else [])
      cf) cf.

(** A constraint, as the score director reads it on the working solution: its
    name and the (hard, soft) amount it adds to the score.  The score class,
    [HardSoftScore], holds two integers. *)
Record Constraint : Type := as_constraint {
  impact : Py.result (Z * Z);
  constraint_name : string
}.

(** [.penalize(HardSoftScore.ONE_HARD)]: one hard point per match. *)
Definition penalize_ONE_HARD {A : Type} (matches : list A) : Py.result (Z * Z) :=
  Py.Ok ((- Z.of_nat (List.length matches))%Z, 0%Z).

(** [.penalize(HardSoftScore.ONE_SOFT, weigher)]: per match, the weigher's
    value in soft points.  The match weight of this score class is an integer:
    the float that the weigher returns is truncated, match by match, before it
    is added. *)
Definition penalize_ONE_SOFT {A : Type} (weigher : A -> Py.result R) (matches : list A)
  : Py.result (Z * Z) :=
  total <- Py.for_loop matches
             (fun s m => w <- weigher m ;; Py.Ok (s + Py.trunc w)%Z) 0%Z ;;
  Py.Ok (0%Z, (- total)%Z).

Definition disallowed_location_filter (bp : BuildingPlacement.t) : bool :=
  match BuildingPlacement.location bp with
  | None => false
  | Some l =>
      negb (contains BuildingType.eqb (BuildingPlacement.building_type bp)
              (Location.allowed_building_types l))
  end.

Definition build_disallowed_location_constraint (cf : ConstraintFactory) : Constraint :=
  as_constraint
    (penalize_ONE_HARD (filter disallowed_location_filter (for_each cf)))
    "Building in disallowed location (HARD)".

Definition house_school_filter (p : BuildingPlacement.t * BuildingPlacement.t) : bool :=
  let (bp1, bp2) := p in
  ((BuildingType.eqb (BuildingPlacement.building_type bp1) HOUSE
    && BuildingType.eqb (BuildingPlacement.building_type bp2) SCHOOL)
   || (BuildingType.eqb (BuildingPlacement.building_type bp1) SCHOOL
       && BuildingType.eqb (BuildingPlacement.building_type bp2) HOUSE))
  && is_not_None (BuildingPlacement.location bp1)
  && is_not_None (BuildingPlacement.location bp2).

Definition build_house_school_distance_constraint (cf : ConstraintFactory) : Constraint :=
  as_constraint
    (penalize_ONE_SOFT (fun p => calc_distance (fst p) (snd p))
       (filter house_school_filter (for_each_unique_pair cf)))
    "Distance between HOUSE and SCHOOL (SOFT)".

Definition house_office_filter (p : BuildingPlacement.t * BuildingPlacement.t) : bool :=
  let (bp1, bp2) := p in
  ((BuildingType.eqb (BuildingPlacement.building_type bp1) HOUSE
    && BuildingType.eqb (BuildingPlacement.building_type bp2) OFFICE)
   || (BuildingType.eqb (BuildingPlacement.building_type bp1) OFFICE
       && BuildingType.eqb (BuildingPlacement.building_type bp2) HOUSE))
  && is_not_None (BuildingPlacement.location bp1)
  && is_not_None (BuildingPlacement.location bp2).

Definition build_house_office_distance_constraint (cf : ConstraintFactory) : Constraint :=
  as_constraint
    (penalize_ONE_SOFT (fun p => calc_distance (fst p) (snd p))
       (filter house_office_filter (for_each_unique_pair cf)))
    "Distance between HOUSE and OFFICE (SOFT)".

Definition location_uniqueness_filter (p : BuildingPlacement.t * BuildingPlacement.t)
  : bool :=
  let (bp1, bp2) := p in
  is_not_None (BuildingPlacement.location bp1)
  && location_eq (BuildingPlacement.location bp1) (BuildingPlacement.location bp2).

Definition build_location_uniqueness_constraint (cf : ConstraintFactory) : Constraint :=
  as_constraint
    (penalize_ONE_HARD (filter location_uniqueness_filter (for_each_unique_pair cf)))
    "Location uniqueness (HARD)".

Definition zoning_mismatch_filter (bp : BuildingPlacement.t) : bool :=
  match BuildingPlacement.location bp with
  | None => false
  | Some l =>
      negb (is_building_type_allowed_in_zone (BuildingPlacement.building_type bp)
              (Location.zone l))
  end.

Definition build_zoning_mismatch_constraint (cf : ConstraintFactory) : Constraint :=
  as_constraint
    (penalize_ONE_HARD (filter zoning_mismatch_filter (for_each cf)))
    "Zoning mismatch (HARD)".

Definition cost_filter (bp : BuildingPlacement.t) : bool :=
  is_not_None (BuildingPlacement.location bp).

Definition cost_weigher (bp : BuildingPlacement.t) : Py.result R :=
  match BuildingPlacement.location bp with
  | None => Py.Raise Py.AttributeError
  | Some l => Py.Ok (Location.cost_factor l)
  end.

Definition build_cost_constraint (cf : ConstraintFactory) : Constraint :=
  as_constraint
    (penalize_ONE_SOFT cost_weigher (filter cost_filter (for_each cf)))
    "Building cost minimization (SOFT)".

Definition define_constraints (constraint_factory : ConstraintFactory) : list Constraint :=
  [ build_disallowed_location_constraint constraint_factory;
    build_house_school_distance_constraint constraint_factory;
    build_house_office_distance_constraint constraint_factory;
    build_zoning_mismatch_constraint constraint_factory;
    build_location_uniqueness_constraint constraint_factory;
    build_cost_constraint constraint_factory ].

End Constraints.

(** ** app.py *)

Module App.

Import Py BuildingType.

(** One entry of the breakdown list (a dict with these three keys). *)
Record BreakdownEntry : Type := Entry {
  constraintName : string;
  hardPenalty : Z;
  softPenalty : R
}.

Section Builder.

Variable Score : Type.
Variable int_of_str : string -> option Z.
Variable float_of_str : string -> option R.

(** The [Location(...)] call of the first loop; the keyword arguments are
    evaluated in the order they are written. *)
Definition build_location (loc : pyval) : result Location.t :=
  id_raw <- subscript loc "id" ;;
  id <- int int_of_str id_raw ;;
  name <- subscript loc "name" ;;
  x_raw <- subscript loc "x" ;;
  x <- float float_of_str x_raw ;;
  y_raw <- subscript loc "y" ;;
  y <- float float_of_str y_raw ;;
  zone_raw <- subscript loc "zone" ;;
  zone <- ZoneType.of_value zone_raw ;;
  cost_raw <- get loc "cost_factor" (PFloat 1) ;;
  cost_factor <- float float_of_str cost_raw ;;
  allowed_raw <- get loc "allowed_building_types" (PList []) ;;
  allowed_items <- iter allowed_raw ;;
  allowed_building_types <- comprehension BuildingType.of_value allowed_items ;;
  Ok (Location.Build id name x y zone cost_factor allowed_building_types).

(** The [BuildingPlacement(...)] call of the second loop. *)
Definition build_placement (b : pyval) : result BuildingPlacement.t :=
  id_raw <- subscript b "id" ;;
  id <- int int_of_str id_raw ;;
  type_raw <- subscript b "building_type" ;;
  building_type <- BuildingType.of_value type_raw ;;
  Ok (BuildingPlacement.Build id building_type None).

Definition build_solution_from_data (data : pyval) : result (CityPlanSolution.t Score) :=
  sol_id <- get data "id" (PStr "NoNamePlan") ;;
  locs_raw <- get data "locations" (PList []) ;;
  bld_raw <- get data "buildings" (PList []) ;;
  locs <- iter locs_raw ;;
  location_list <-
    for_loop locs (fun acc loc => l <- build_location loc ;; Ok (acc ++ [l])) [] ;;
  blds <- iter bld_raw ;;
  building_list <-
    for_loop blds (fun acc b => p <- build_placement b ;; Ok (acc ++ [p])) [] ;;
  Ok (CityPlanSolution.Build sol_id location_list building_list None).

(** [json_load path] stands for opening the file and decoding it. *)
Variable json_load : string -> result pyval.

Definition load_solution_from_json (path : string) : result (CityPlanSolution.t Score) :=
  data <- json_load path ;;
  build_solution_from_data data.

End Builder.

Definition disallowed_test (bp : BuildingPlacement.t) : bool :=
  match BuildingPlacement.location bp with
  | None => false
  | Some l =>
      negb (contains BuildingType.eqb (BuildingPlacement.building_type bp)
              (Location.allowed_building_types l))
  end.

Definition zoning_test (bp : BuildingPlacement.t) : bool :=
  match BuildingPlacement.location bp with
  | None => false
  | Some l =>
      negb (Constraints.is_building_type_allowed_in_zone
              (BuildingPlacement.building_type bp) (Location.zone l))
  end.

Definition uniqueness_test (bp1 bp2 : BuildingPlacement.t) : bool :=
  truthy (BuildingPlacement.location bp1)
  && truthy (BuildingPlacement.location bp2)
  && location_eq (BuildingPlacement.location bp1) (BuildingPlacement.location bp2).

Definition both_assigned (bp1 bp2 : BuildingPlacement.t) : bool :=
  truthy (BuildingPlacement.location bp1) && truthy (BuildingPlacement.location bp2).

Definition house_school_test (bp1 bp2 : BuildingPlacement.t) : bool :=
  (BuildingType.eqb (BuildingPlacement.building_type bp1) HOUSE
   && BuildingType.eqb (BuildingPlacement.building_type bp2) SCHOOL)
  || (BuildingType.eqb (BuildingPlacement.building_type bp1) SCHOOL
      && BuildingType.eqb (BuildingPlacement.building_type bp2) HOUSE).

Definition house_office_test (bp1 bp2 : BuildingPlacement.t) : bool :=
  (BuildingType.eqb (BuildingPlacement.building_type bp1) HOUSE
   && BuildingType.eqb (BuildingPlacement.building_type bp2) OFFICE)
  || (BuildingType.eqb (BuildingPlacement.building_type bp1) OFFICE
      && BuildingType.eqb (BuildingPlacement.building_type bp2) HOUSE).

(** The doubly nested loop
    [for i in range(n): for j in range(i+1, n): bp1 = placements[i];
     bp2 = placements[j]; acc = body(acc, bp1, bp2)]. *)
Definition pair_loop {S : Type} (placements : list BuildingPlacement.t)
  (body : S -> BuildingPlacement.t -> BuildingPlacement.t -> result S) (init : S)
  : result S :=
  let n := List.length placements in
  for_loop (range 0 n) (fun acc i =>
    for_loop (range (i + 1) n) (fun acc j =>
      bp1 <- getitem placements i ;;
      bp2 <- getitem placements j ;;
      body acc bp1 bp2) acc) init.

Definition get_score_breakdown {Score : Type} (solution : CityPlanSolution.t Score)
  : result (list BreakdownEntry) :=
  let placements := CityPlanSolution.building_placement_list solution in
  disallowed_count <-
    for_loop placements (fun c bp =>
      Ok (if disallowed_test bp then (c + 1)%Z else c)) 0%Z ;;
  zoning_count <-
    for_loop placements (fun c bp =>
      Ok (if zoning_test bp then (c + 1)%Z else c)) 0%Z ;;
  uniq_count <-
    pair_loop placements (fun c bp1 bp2 =>
      Ok (if uniqueness_test bp1 bp2 then (c + 1)%Z else c)) 0%Z ;;
  hs_sum <-
    pair_loop placements (fun s bp1 bp2 =>
      if both_assigned bp1 bp2 then
        if house_school_test bp1 bp2 then
          d <- Constraints.calc_distance bp1 bp2 ;; Ok (s + d)%R
        else Ok s
      else Ok s) 0%R ;;
  ho_sum <-
    pair_loop placements (fun s bp1 bp2 =>
      if both_assigned bp1 bp2 then
        if house_office_test bp1 bp2 then
          d <- Constraints.calc_distance bp1 bp2 ;; Ok (s + d)%R
        else Ok s
      else Ok s) 0%R ;;
  cost_sum <-
    for_loop placements (fun s bp =>
      match BuildingPlacement.location bp with
      | Some l => Ok (s + Location.cost_factor l)%R
      | None => Ok s
      end) 0%R ;;
  Ok [ Entry "Building in disallowed location (HARD)" (- disallowed_count)%Z 0%R;
       Entry "Zoning mismatch (HARD)" (- zoning_count)%Z 0%R;
       Entry "Location uniqueness (HARD)" (- uniq_count)%Z 0%R;
       Entry "Distance between HOUSE and SCHOOL (SOFT)" 0%Z (- hs_sum)%R;
       Entry "Distance between HOUSE and OFFICE (SOFT)" 0%Z (- ho_sum)%R;
       Entry "Building cost minimization (SOFT)" 0%Z (- cost_sum)%R ].

(** The dict under a placement's ["location"] key. *)
Record LocationData : Type := {
  data_id : Z;
  data_name : pyval;
  data_x : R;
  data_y : R;
  data_zone : string;
  data_cost_factor : R
}.

Record PlacementData : Type := {
  placement_id : Z;
  placement_building_type : string;
  placement_location : option LocationData
}.

(** The response dict. *)
Record Response (B : Type) : Type := {
  solution_id : pyval;
  score : string;
  placements : list PlacementData;
  constraintBreakdown : B
}.

Arguments solution_id {B}.
Arguments score {B}.
Arguments placements {B}.
Arguments constraintBreakdown {B}.

Section Response.

Variable Score : Type.
(** [str(score)], the score class's own rendering. *)
Variable str : Score -> string.

Definition placement_to_dict (bp : BuildingPlacement.t) : PlacementData :=
  let loc_data :=
    match BuildingPlacement.location bp with
    | Some l =>
        Some {| data_id := Location.id l;
                data_name := Location.name l;
                data_x := Location.x l;
                data_y := Location.y l;
                data_zone := ZoneType.value (Location.zone l);
                data_cost_factor := Location.cost_factor l |}
    | None => None
    end in
  {| placement_id := BuildingPlacement.id bp;
     placement_building_type := BuildingType.value (BuildingPlacement.building_type bp);
     placement_location := loc_data |}.

(** The conditional expression [str(solution.score) if solution.score else "None"]. *)
Definition score_text (s : option Score) : string :=
  if truthy s then match s with Some sc => str sc | None => "None" end else "None".

Definition solution_to_dict {B : Type} (solution : CityPlanSolution.t Score) (breakdown : B)
  : Response B :=
  {| solution_id := CityPlanSolution.id solution;
     score := score_text (CityPlanSolution.score solution);
     placements := map placement_to_dict (CityPlanSolution.building_placement_list solution);
     constraintBreakdown := breakdown |}.

End Response.

End App.

(** ** The solver framework's objects, as far as solve.py touches them *)

Module Timefold.

Import Py.

Record Duration : Type := { seconds : Z }.

Record TerminationConfig : Type := { spent_limit : option Duration }.

Record ScoreDirectorFactoryConfig : Type := {
  constraint_provider_function :
    Constraints.ConstraintFactory -> list Constraints.Constraint
}.

(** The keyword arguments solve.py gives to [SolverConfig(...)].  The class
    has no field for a construction heuristic or for a local search. *)
Record SolverConfig : Type := {
  solution_class : string;
  entity_class_list : list string;
  score_director_factory_config : ScoreDirectorFactoryConfig;
  termination_config : TerminationConfig
}.

(** A solver factory object: the engine-side factory that [create] builds from
    the configuration, and the instance dictionary, which receives every
    attribute assigned to the object that its class does not define. *)
Record SolverFactory : Type := {
  delegate : SolverConfig;
  instance_dict : list (string * pyval)
}.

(** [SolverFactory.create(config)] *)
Definition create (config : SolverConfig) : SolverFactory :=
  {| delegate := config; instance_dict := [] |}.

(** [factory.attr = value], for an attribute the class does not define. *)
Definition setattr (factory : SolverFactory) (attr : string) (value : pyval)
  : SolverFactory :=
  {| delegate := delegate factory;
     instance_dict := (attr, value) :: instance_dict factory |}.

(** What a built solver runs with.  A phase type is [None] when the
    configuration names none: the engine then runs its default phases. *)
Record Solver : Type := {
  construction_heuristic_type : option string;
  local_search_type : option string;
  time_limit_seconds : option Z
}.

(** [factory.build_solver()]: the engine-side factory builds the solver, from
    the configuration that was given to [create].  The instance dictionary of
    the Python object is not part of that configuration. *)
Definition build_solver (factory : SolverFactory) : Solver :=
  {| construction_heuristic_type := None;
     local_search_type := None;
     time_limit_seconds :=
       option_map seconds (spent_limit (termination_config (delegate factory))) |}.

End Timefold.

(** ** solve.py *)

Module Solve.

Import Py BuildingType ZoneType Timefold.

Definition loc1 : Location.t :=
  Location.Build 1 (PStr "Loc1") 0 0 RESIDENTIAL 3 [HOUSE; SCHOOL; HOSPITAL].

Definition loc2 : Location.t :=
  Location.Build 2 (PStr "Loc2") 10 0 COMMERCIAL 7 [OFFICE; SHOP; PHARMACY].

Definition loc3 : Location.t :=
  Location.Build 3 (PStr "Loc3") 5 5 MIXED 10 [HOUSE; OFFICE; SCHOOL; SHOP].

Definition loc4 : Location.t :=
  Location.Build 4 (PStr "Loc4") 20 5 RESTRICTED 1 [].

Definition bp1 : BuildingPlacement.t := BuildingPlacement.Build 101 HOUSE None.
Definition bp2 : BuildingPlacement.t := BuildingPlacement.Build 102 SCHOOL None.
Definition bp3 : BuildingPlacement.t := BuildingPlacement.Build 103 OFFICE None.
Definition bp4 : BuildingPlacement.t := BuildingPlacement.Build 104 SHOP None.

Definition create_initial_solution {Score : Type} : CityPlanSolution.t Score :=
  CityPlanSolution.Build (PStr "Demo") [loc1; loc2; loc3; loc4] [bp1; bp2; bp3; bp4] None.

(** The factory object as it stands when [build_solver] is called. *)
Definition solver_factory : SolverFactory :=
  let solver_factory :=
    create
      {| solution_class := "CityPlanSolution";
         entity_class_list := ["BuildingPlacement"];
         score_director_factory_config :=
           {| constraint_provider_function := Constraints.define_constraints |};
         termination_config := {| spent_limit := Some {| seconds := 5 |} |} |} in
  let solver_factory :=
    setattr solver_factory "construction_heuristic_type" (PStr "FIRST_FIT") in
  let solver_factory :=
    setattr solver_factory "local_search_type" (PStr "TABU_SEARCH") in
  solver_factory.

Section Solving.

Variable Score : Type.
(** [solver.solve(problem)]: the engine's search. *)
Variable solve : Solver -> CityPlanSolution.t Score -> CityPlanSolution.t Score.

Definition solve_city_plan (problem : CityPlanSolution.t Score) : CityPlanSolution.t Score :=
  let solver := build_solver solver_factory in
  let best_solution := solve solver problem in
  best_solution.

End Solving.

End Solve.

(** ** benchmark.py *)

Module Benchmark.

Import Py.

Section Loader.

Variable Score : Type.
Variable int_of_str : string -> option Z.
Variable float_of_str : string -> option R.
Variable json_load : string -> result pyval.

Definition load_solution_from_json (path : string) : result (CityPlanSolution.t Score) :=
  data <- json_load path ;;
  sol_id <- get data "id" (PStr "PlanX") ;;
  locs_raw <- get data "locations" (PList []) ;;
  bld_raw <- get data "buildings" (PList []) ;;
  locs <- iter locs_raw ;;
  location_list <-
    for_loop locs (fun acc loc =>
      l <- App.build_location int_of_str float_of_str loc ;; Ok (acc ++ [l])) [] ;;
  blds <- iter bld_raw ;;
  building_list <-
    for_loop blds (fun acc b =>
      p <- App.build_placement int_of_str b ;; Ok (acc ++ [p])) [] ;;
  Ok (CityPlanSolution.Build sol_id location_list building_list None).

End Loader.

End Benchmark.

(** ** Floats with infinities and NaN

    The embedding above reads a float as a real number, which is what a finite
    float is up to rounding.  A request may also hold [Infinity] and [NaN]
    (the JSON decoder accepts both), and the distance and the soft sums then
    leave the finite floats.  This module has the floats with their special
    values, and on them the code that computes with coordinates and cost
    factors: [calc_distance] of constraints.py and the three SOFT blocks of
    [get_score_breakdown] of app.py.  A finite result is still an exact real
    number: there is no rounding, no overflow and no signed zero. *)

Module Ieee.

Import Py BuildingType.

Inductive float : Type :=
| Fin (r : R)
| Inf (negative : bool)
| NaN.

Definition zero : float := Fin 0.

(** [a + b] *)
Definition add (a b : float) : float :=
  match a, b with
  | NaN, _ | _, NaN => NaN
  | Fin x, Fin y => Fin (x + y)
  | Inf s, Fin _ => Inf s
  | Fin _, Inf s => Inf s
  | Inf s, Inf s' => if Bool.eqb s s' then Inf s else NaN
  end.

(** [- a] *)
Definition neg (a : float) : float :=
  match a with
  | Fin x => Fin (- x)
  | Inf s => Inf (negb s)
  | NaN => NaN
  end.

(** [a - b] *)
Definition sub (a b : float) : float := add a (neg b).

(** [fabs(a)] *)
Definition abs (a : float) : float :=
  match a with
  | Fin x => Fin (Rabs x)
  | Inf _ => Inf false
  | NaN => NaN
  end.

Definition isnan (a : float) : bool :=
  match a with NaN => true | _ => false end.

Definition isinf (a : float) : bool :=
  match a with Inf _ => true | _ => false end.

(** [a < b]; every comparison with NaN is false. *)
Definition lt (a b : float) : bool :=
  match a, b with
  | NaN, _ | _, NaN => false
  | Fin x, Fin y => if Rlt_dec x y then true else false
  | Fin _, Inf s => negb s
  | Inf s, Fin _ => s
  | Inf s, Inf s' => s && negb s'
  end.

(** [a == b] *)
Definition eq (a b : float) : bool :=
  match a, b with
  | NaN, _ | _, NaN => false
  | Fin x, Fin y => if Req_dec_T x y then true else false
  | Inf s, Inf s' => Bool.eqb s s'
  | _, _ => false
  end.


(** The norm of the vector of absolute differences [dx], [dy], given their
    maximum and whether one of them is NaN, as the interpreter's [math.dist]
    computes it: an infinite maximum is the result, else a NaN difference
    makes the result NaN, else a zero maximum is the result, else the root of
    the sum of the squares. *)
Definition vector_norm (dx dy : float) (max : float) (found_nan : bool) : float :=
  if isinf max then max
  else if found_nan then NaN
  else if eq max zero then max
  else match dx, dy with
       | Fin a, Fin b => Fin (sqrt (a * a + b * b))
       | _, _ => NaN
       end.

(** The running maximum of [math.dist]: [if (x > max) max = x]. *)
Definition update_max (max x : float) : float := if lt max x then x else max.

(** [math.dist(p, q)] on two points of the plane. *)
Definition dist (p q : float * float) : float :=
  let dx := abs (sub (fst p) (fst q)) in
  let dy := abs (sub (snd p) (snd q)) in
  vector_norm dx dy (update_max (update_max zero dx) dy) (isnan dx || isnan dy).

(** The dataclasses of domain.py, with float fields holding any float. *)
Record Location : Type := {
  id : Z;
  name : pyval;
  x : float;
  y : float;
  zone : ZoneType.t;
  cost_factor : float;
  allowed_building_types : list BuildingType.t
}.

Record BuildingPlacement : Type := {
  placement_id : Z;
  building_type : BuildingType.t;
  location : option Location
}.

(** An entry of the breakdown whose soft penalty is any float. *)
Record BreakdownEntry : Type := Entry {
  constraintName : string;
  hardPenalty : Z;
  softPenalty : float
}.

Definition calc_distance (bp1 bp2 : BuildingPlacement) : result float :=
  match location bp1 with
  | None => Raise AttributeError
  | Some l1 =>
      match location bp2 with
      | None => Raise AttributeError
      | Some l2 => Ok (dist (x l1, y l1) (x l2, y l2))
      end
  end.

Definition both_assigned (bp1 bp2 : BuildingPlacement) : bool :=
  truthy (location bp1) && truthy (location bp2).

Definition house_school_test (bp1 bp2 : BuildingPlacement) : bool :=
  (BuildingType.eqb (building_type bp1) HOUSE && BuildingType.eqb (building_type bp2) SCHOOL)
  || (BuildingType.eqb (building_type bp1) SCHOOL
      && BuildingType.eqb (building_type bp2) HOUSE).

Definition house_office_test (bp1 bp2 : BuildingPlacement) : bool :=
  (BuildingType.eqb (building_type bp1) HOUSE && BuildingType.eqb (building_type bp2) OFFICE)
  || (BuildingType.eqb (building_type bp1) OFFICE
      && BuildingType.eqb (building_type bp2) HOUSE).

(** [for i in range(n): for j in range(i+1, n): bp1 = placements[i];
     bp2 = placements[j]; acc = body(acc, bp1, bp2)] *)
Definition pair_loop {S : Type} (placements : list BuildingPlacement)
  (body : S -> BuildingPlacement -> BuildingPlacement -> result S) (init : S)
  : result S :=
  let n := List.length placements in
  for_loop (range 0 n) (fun acc i =>
    for_loop (range (i + 1) n) (fun acc j =>
      bp1 <- getitem placements i ;;
      bp2 <- getitem placements j ;;
      body acc bp1 bp2) acc) init.




End Ieee.

(** ** Reference definitions, in the words of the specification

    The theorems below compare the code with these. *)

Module Spec.

Import BuildingType ZoneType.

(** The zone-compatibility table, row by row. *)
Definition permitted_zones (b : BuildingType.t) : list ZoneType.t :=
  match b with
  | HOUSE => [RESIDENTIAL; MIXED; COMMERCIAL]
  | OFFICE => [COMMERCIAL; MIXED]
  | SHOP => [COMMERCIAL; MIXED]
  | SCHOOL => [RESIDENTIAL; MIXED]
  | HOSPITAL => [RESIDENTIAL; MIXED]
  | PHARMACY => [RESIDENTIAL; MIXED; COMMERCIAL]
  end.

(** Two placements that are both assigned and share the same location. *)
Definition shares_location (p : BuildingPlacement.t * BuildingPlacement.t) : bool :=
  match BuildingPlacement.location (fst p), BuildingPlacement.location (snd p) with
  | Some l1, Some l2 => Location.eqb l1 l2
  | _, _ => false
  end.

(** A placement assigned to the location [L]. *)
Definition placed_at (L : Location.t) (bp : BuildingPlacement.t) : bool :=
  match BuildingPlacement.location bp with
  | Some l => Location.eqb l L
  | None => false
  end.

(** The locations of the assigned placements, one per assigned placement. *)
Definition assigned_locations (ps : list BuildingPlacement.t) : list Location.t :=
  flat_map (fun bp =>
    match BuildingPlacement.location bp with
    | Some l => [l]
    | None => []
    end) ps.

(** The entry of a breakdown with the given constraint name. *)
Definition entry_named (name : string) (bd : list App.BreakdownEntry)
  : option App.BreakdownEntry :=
  find (fun e => String.eqb (App.constraintName e) name) bd.

End Spec.

(** ** Sums over lists and over unordered pairs *)

Section SumDefinitions.

Variable M : Type.
Variable op : M -> M -> M.
Variable e : M.

(** The sum of a list. *)
Definition msum (l : list M) : M := fold_right op e l.

(** [when c x] is [x] if the test [c] holds and the neutral element otherwise. *)
Definition when (c : bool) (x : M) : M := if c then x else e.

(** The sum of [v a b] over the pairs of positions [i < j] of a list, [a]
    standing at [i] and [b] at [j]. *)
Fixpoint pair_sum {A : Type} (v : A -> A -> M) (l : list A) : M :=
  match l with
  | [] => e
  | a :: l' => op (msum (map (v a) l')) (pair_sum v l')
  end.

End SumDefinitions.

Arguments msum {M}.
Arguments when {M}.
Arguments pair_sum {M} op e {A}.

(** The laws the sums below rely on. *)
Definition commutative_monoid {M : Type} (op : M -> M -> M) (e : M) : Prop :=
  (forall a b c, op a (op b c) = op (op a b) c)
  /\ (forall a b, op a b = op b a)
  /\ (forall a, op a e = a).

(** The pairs of positions [i < j] of a list, as pairs of elements. *)
Fixpoint unordered_pairs {A : Type} (l : list A) : list (A * A) :=
  match l with
  | [] => []
  | a :: l' => map (pair a) l' ++ unordered_pairs l'
  end.

(** ** What a placement and a pair of placements contribute *)

(** The Euclidean distance between the locations of two assigned placements
    (and 0 when one of them has none). *)
Definition distance (bp1 bp2 : BuildingPlacement.t) : R :=
  match BuildingPlacement.location bp1, BuildingPlacement.location bp2 with
  | Some l1, Some l2 =>
      Constraints.dist (Location.x l1, Location.y l1) (Location.x l2, Location.y l2)
  | _, _ => 0%R
  end.

(** The cost factor of an assigned placement's location (and 0 for an
    unassigned placement). *)
Definition cost (bp : BuildingPlacement.t) : R :=
  match BuildingPlacement.location bp with
  | Some l => Location.cost_factor l
  | None => 0%R
  end.

Definition assigned (bp : BuildingPlacement.t) : bool :=
  is_not_None (BuildingPlacement.location bp).

(** The six penalties as sums: the value the loops of [get_score_breakdown]
    arrive at. *)
Definition breakdown_value (ps : list BuildingPlacement.t) : list App.BreakdownEntry :=
  [ App.Entry "Building in disallowed location (HARD)"
      (- msum Z.add 0 (map (fun bp => when 0 (App.disallowed_test bp) 1) ps))%Z 0%R;
    App.Entry "Zoning mismatch (HARD)"
      (- msum Z.add 0 (map (fun bp => when 0 (App.zoning_test bp) 1) ps))%Z 0%R;
    App.Entry "Location uniqueness (HARD)"
      (- pair_sum Z.add 0 (fun a b => when 0 (App.uniqueness_test a b) 1) ps)%Z 0%R;
    App.Entry "Distance between HOUSE and SCHOOL (SOFT)" 0%Z
      (- pair_sum Rplus 0
           (fun a b =>
              when 0 (App.both_assigned a b && App.house_school_test a b) (distance a b))
           ps)%R;
    App.Entry "Distance between HOUSE and OFFICE (SOFT)" 0%Z
      (- pair_sum Rplus 0
           (fun a b =>
              when 0 (App.both_assigned a b && App.house_office_test a b) (distance a b))
           ps)%R;
    App.Entry "Building cost minimization (SOFT)" 0%Z
      (- msum Rplus 0 (map cost ps))%R ].

(** The six constraints of [define_constraints] as sums over the streams, in
    the order of the breakdown: the value the score director arrives at. *)
Definition constraints_value (cf : Constraints.ConstraintFactory)
  : list (string * Py.result (Z * Z)) :=
  [ ("Building in disallowed location (HARD)",
     Py.Ok ((- msum Z.add 0
                 (map (fun bp => when 0 (Constraints.disallowed_location_filter bp) 1)
                    (Constraints.for_each cf)))%Z, 0%Z));
    ("Zoning mismatch (HARD)",
     Py.Ok ((- msum Z.add 0
                 (map (fun bp => when 0 (Constraints.zoning_mismatch_filter bp) 1)
                    (Constraints.for_each cf)))%Z, 0%Z));
    ("Location uniqueness (HARD)",
     Py.Ok ((- msum Z.add 0
                 (map (fun p => when 0 (Constraints.location_uniqueness_filter p) 1)
                    (Constraints.for_each_unique_pair cf)))%Z, 0%Z));
    ("Distance between HOUSE and SCHOOL (SOFT)",
     Py.Ok (0%Z,
            (- msum Z.add 0
                 (map (fun p =>
                         when 0 (Constraints.house_school_filter p)
                           (Py.trunc (distance (fst p) (snd p))))
                    (Constraints.for_each_unique_pair cf)))%Z));
    ("Distance between HOUSE and OFFICE (SOFT)",
     Py.Ok (0%Z,
            (- msum Z.add 0
                 (map (fun p =>
                         when 0 (Constraints.house_office_filter p)
                           (Py.trunc (distance (fst p) (snd p))))
                    (Constraints.for_each_unique_pair cf)))%Z));
    ("Building cost minimization (SOFT)",
     Py.Ok (0%Z,
            (- msum Z.add 0
                 (map (fun bp => when 0 (Constraints.cost_filter bp) (Py.trunc (cost bp)))
                    (Constraints.for_each cf)))%Z)) ].

(** A constraint read as a name and an amount. *)
Definition named_impact (c : Constraints.Constraint) : string * Py.result (Z * Z) :=
  (Constraints.constraint_name c, Constraints.impact c).

(** The constraints of [define_constraints], in the order of the breakdown. *)
Definition constraints_in_breakdown_order (cf : Constraints.ConstraintFactory)
  : list Constraints.Constraint :=
  [ Constraints.build_disallowed_location_constraint cf;
    Constraints.build_zoning_mismatch_constraint cf;
    Constraints.build_location_uniqueness_constraint cf;
    Constraints.build_house_school_distance_constraint cf;
    Constraints.build_house_office_distance_constraint cf;
    Constraints.build_cost_constraint cf ].

(** A solution without its unassigned placements. *)
Definition without_unassigned {Score : Type} (solution : CityPlanSolution.t Score)
  : CityPlanSolution.t Score :=
  CityPlanSolution.Build
    (CityPlanSolution.id solution)
    (CityPlanSolution.location_list solution)
    (filter assigned (CityPlanSolution.building_placement_list solution))
    (CityPlanSolution.score solution).

(** ** Sample assignments of the demo data set *)

(** The demo placements bound to the given locations (or left unassigned). *)
Definition demo_assignment (o1 o2 o3 o4 : option Location.t) : CityPlanSolution.t unit :=
  CityPlanSolution.Build (Py.PStr "Demo")
    [Solve.loc1; Solve.loc2; Solve.loc3; Solve.loc4]
    [ BuildingPlacement.Build 101 BuildingType.HOUSE o1;
      BuildingPlacement.Build 102 BuildingType.SCHOOL o2;
      BuildingPlacement.Build 103 BuildingType.OFFICE o3;
      BuildingPlacement.Build 104 BuildingType.SHOP o4 ]
    None.

(** The three placements of the demo data set other than placement 101. *)
Definition demo_others (o2 o3 o4 : option Location.t) : list BuildingPlacement.t :=
  [ BuildingPlacement.Build 102 BuildingType.SCHOOL o2;
    BuildingPlacement.Build 103 BuildingType.OFFICE o3;
    BuildingPlacement.Build 104 BuildingType.SHOP o4 ].


(** House and school collide on loc1, the office sits on loc2, the shop is
    unassigned. *)
Definition demo_collision : CityPlanSolution.t unit :=
  demo_assignment (Some Solve.loc1) (Some Solve.loc1) (Some Solve.loc2) None.

(** A placement on each of the first three locations, the shop unassigned. *)
Definition demo_spread : CityPlanSolution.t unit :=
  demo_assignment (Some Solve.loc1) (Some Solve.loc3) (Some Solve.loc2) None.

(** ** Requests *)

(** The value under a key of the request, or the default of [get]. *)
Definition field (d : list (string * Py.pyval)) (k : string) (default : Py.pyval)
  : Py.pyval :=
  match Py.lookup d k with Some v => v | None => default end.

(** A request with one location record that gives neither a cost factor nor
    allowed building types, and one building record that also carries a
    location. *)
Definition sample_location_record : list (string * Py.pyval) :=
  [ ("id", Py.PInt 1); ("name", Py.PStr "A"); ("x", Py.PInt 0); ("y", Py.PInt 0);
    ("zone", Py.PStr "RESTRICTED") ].

Definition sample_fields : list (string * Py.pyval) :=
  [ ("id", Py.PStr "P");
    ("locations", Py.PList [Py.PDict sample_location_record]);
    ("buildings",
     Py.PList [ Py.PDict [ ("id", Py.PInt 101);
                           ("building_type", Py.PStr "HOUSE");
                           ("location", Py.PInt 1) ] ]) ].

Definition sample_request : Py.pyval := Py.PDict sample_fields.

Definition sample_location : Location.t :=
  Location.Build 1 (Py.PStr "A") 0 0 ZoneType.RESTRICTED 1 [].

Definition sample_solution : CityPlanSolution.t unit :=
  CityPlanSolution.Build (Py.PStr "P") [sample_location]
    [BuildingPlacement.Build 101 BuildingType.HOUSE None] None.

(** No numeral is read from a string in the samples. *)
Definition no_int_of_str : string -> option Z := fun _ => None.
Definition no_float_of_str : string -> option R := fun _ => None.

(** ** Solutions and breakdowns used by the further properties *)

(** The breakdown in which every penalty is zero. *)
Definition zero_breakdown : list App.BreakdownEntry :=
  [ App.Entry "Building in disallowed location (HARD)" 0 0;
    App.Entry "Zoning mismatch (HARD)" 0 0;
    App.Entry "Location uniqueness (HARD)" 0 0;
    App.Entry "Distance between HOUSE and SCHOOL (SOFT)" 0 0;
    App.Entry "Distance between HOUSE and OFFICE (SOFT)" 0 0;
    App.Entry "Building cost minimization (SOFT)" 0 0 ].

(** A solution with another list of placements. *)
Definition with_placements {Score : Type} (solution : CityPlanSolution.t Score)
  (ps : list BuildingPlacement.t) : CityPlanSolution.t Score :=
  CityPlanSolution.Build
    (CityPlanSolution.id solution)
    (CityPlanSolution.location_list solution)
    ps
    (CityPlanSolution.score solution).

(** The second entry has the name of the first and penalties that are not
    higher. *)
Definition no_better (e e' : App.BreakdownEntry) : Prop :=
  App.constraintName e' = App.constraintName e
  /\ (App.hardPenalty e' <= App.hardPenalty e)%Z
  /\ (App.softPenalty e' <= App.softPenalty e)%R.

(** The name and the hard penalty of an entry. *)
Definition hard_part (e : App.BreakdownEntry) : string * Z :=
  (App.constraintName e, App.hardPenalty e).

(** The sum of the hard penalties of a breakdown. *)
Definition hard_total (bd : list App.BreakdownEntry) : Z :=
  msum Z.add 0%Z (map App.hardPenalty bd).

(** The colliding sample with its placements in another order. *)
Definition demo_collision_reordered : CityPlanSolution.t unit :=
  with_placements demo_collision
    [ BuildingPlacement.Build 103 BuildingType.OFFICE (Some Solve.loc2);
      BuildingPlacement.Build 101 BuildingType.HOUSE (Some Solve.loc1);
      BuildingPlacement.Build 104 BuildingType.SHOP None;
      BuildingPlacement.Build 102 BuildingType.SCHOOL (Some Solve.loc1) ].

(** The demo placements bound to the cheapest assignment of hard penalties:
    house on loc1, school on loc3, office and shop both on loc2. *)
Definition demo_best_effort : CityPlanSolution.t unit :=
  demo_assignment (Some Solve.loc1) (Some Solve.loc3) (Some Solve.loc2) (Some Solve.loc2).

(** ** Requests and responses used by the further properties *)

(** The JSON form of the dict under a placement's "location" key. *)
Definition location_json (ld : App.LocationData) : Py.pyval :=
  Py.PDict
    [ ("id", Py.PInt (App.data_id ld));
      ("name", App.data_name ld);
      ("x", Py.PFloat (App.data_x ld));
      ("y", Py.PFloat (App.data_y ld));
      ("zone", Py.PStr (App.data_zone ld));
      ("cost_factor", Py.PFloat (App.data_cost_factor ld)) ].

(** The JSON form of one element of the response's "placements" list. *)
Definition placement_json (pd : App.PlacementData) : Py.pyval :=
  Py.PDict
    [ ("id", Py.PInt (App.placement_id pd));
      ("building_type", Py.PStr (App.placement_building_type pd));
      ("location",
       match App.placement_location pd with
       | Some ld => location_json ld
       | None => Py.PNone
       end) ].

(** The keys a location record and a building record are read by. *)
Definition location_keys : list string :=
  ["id"; "name"; "x"; "y"; "zone"; "cost_factor"; "allowed_building_types"].

Definition building_keys : list string := ["id"; "building_type"].

(** A location record without a zone, and one without an id. *)
Definition record_without_zone : Py.pyval :=
  Py.PDict [ ("id", Py.PInt 2); ("name", Py.PStr "B"); ("x", Py.PInt 1); ("y", Py.PInt 1) ].

Definition record_without_id : Py.pyval :=
  Py.PDict [ ("name", Py.PStr "C") ].

(** A request whose second location record lacks a zone and whose third
    lacks an id; its only building record lacks a type. *)
Definition faulty_fields : list (string * Py.pyval) :=
  [ ("locations",
     Py.PList [Py.PDict sample_location_record; record_without_zone; record_without_id]);
    ("buildings", Py.PList [Py.PDict [("id", Py.PInt 7)]]) ].



(** ** Samples on which the two layers part *)

(** The demo data set with the house on loc1 and the school on loc3, the
    other two placements unassigned. *)
Definition demo_house_school : CityPlanSolution.t unit :=
  demo_assignment (Some Solve.loc1) (Some Solve.loc3) None None.

(** Two placements that carry the same id, both on loc1. *)
Definition twins : CityPlanSolution.t unit :=
  CityPlanSolution.Build (Py.PStr "Twins") [Solve.loc1]
    [ BuildingPlacement.Build 1 BuildingType.HOUSE (Some Solve.loc1);
      BuildingPlacement.Build 1 BuildingType.HOUSE (Some Solve.loc1) ]
    None.

(** ** Data of the float model *)






(** * Properties *)

(** ** Enumerations and equality tests *)

Lemma BuildingType_eqb_eq : forall a b, BuildingType.eqb a b = true <-> a = b.
Proof. intros [] []; simpl; split; intro H; congruence. Qed.

Lemma ZoneType_eqb_eq : forall a b, ZoneType.eqb a b = true <-> a = b.
Proof. intros [] []; simpl; split; intro H; congruence. Qed.

Lemma contains_In :
  forall (A : Type) (eqb : A -> A -> bool),
    (forall a b, eqb a b = true <-> a = b) ->
    forall x xs, contains eqb x xs = true <-> In x xs.
Proof.
  intros A eqb Heqb x xs. unfold contains. rewrite existsb_exists. split.
  - intros [y [Hin Hy]]. apply Heqb in Hy. now subst.
  - intro Hin. exists x. split; [assumption | now apply Heqb].
Qed.

Lemma Location_eqb_eq : forall a b, Location.eqb a b = true <-> a = b.
Proof.
  intros a b. unfold Location.eqb. destruct (Location.eq_dec a b); split; congruence.
Qed.

Lemma Location_eqb_refl : forall a, Location.eqb a a = true.
Proof. intro a. now apply Location_eqb_eq. Qed.

Lemma Location_eqb_sym : forall a b, Location.eqb a b = Location.eqb b a.
Proof.
  intros a b. unfold Location.eqb.
  destruct (Location.eq_dec a b), (Location.eq_dec b a); congruence.
Qed.

Lemma location_eq_sym : forall a b, location_eq a b = location_eq b a.
Proof. intros [a|] [b|]; simpl; auto using Location_eqb_sym. Qed.

(** ** The zone-compatibility table *)

(** C1. [is_building_type_allowed_in_zone b z] is true exactly when the
    specification's table lists [z] among the zones permitted for [b]; it is
    false for every building type in a RESTRICTED zone and in an INDUSTRIAL
    zone. *)
Theorem is_building_type_allowed_in_zone_table :
  (forall b z,
      Constraints.is_building_type_allowed_in_zone b z = true
      <-> In z (Spec.permitted_zones b))
  /\ (forall b, Constraints.is_building_type_allowed_in_zone b ZoneType.RESTRICTED = false)
  /\ (forall b, Constraints.is_building_type_allowed_in_zone b ZoneType.INDUSTRIAL = false).
Proof.
  split; [|split].
  - intros b z. destruct b, z; simpl; split; intro H;
      try reflexivity; try discriminate;
      try (repeat (destruct H as [H|H]; try discriminate); contradiction);
      auto 10.
  - intros []; reflexivity.
  - intros []; reflexivity.
Qed.

(** ** Loops and sums *)

Lemma for_loop_ext :
  forall (S A : Type) (f g : S -> A -> Py.result S) (l : list A),
    (forall s a, In a l -> f s a = g s a) ->
    forall s, Py.for_loop l f s = Py.for_loop l g s.
Proof.
  intros S A f g l. induction l as [|a l IH]; intros H s; simpl; [reflexivity|].
  rewrite (H s a (or_introl eq_refl)).
  destruct (g s a) as [s'|err]; simpl; [|reflexivity].
  apply IH. intros s0 a0 Hin. apply H. now right.
Qed.

(** A loop reading [xs[j]] for [j] over the positions of a suffix is the loop
    over the suffix itself. *)
Lemma for_loop_positions :
  forall (S A : Type) (f : S -> A -> Py.result S) (l pre : list A) (s : S),
    Py.for_loop (seq (List.length pre) (List.length l))
      (fun acc j => x <- Py.getitem (pre ++ l) j ;; f acc x) s
    = Py.for_loop l f s.
Proof.
  intros S A f l. induction l as [|a l IH]; intros pre s; simpl; [reflexivity|].
  unfold Py.getitem at 1.
  rewrite nth_error_app2 by lia. rewrite Nat.sub_diag. simpl.
  destruct (f s a) as [s'|err]; simpl; [|reflexivity].
  specialize (IH (pre ++ [a]) s').
  rewrite length_app in IH. simpl in IH.
  rewrite Nat.add_1_r in IH. rewrite <- app_assoc in IH. simpl in IH.
  exact IH.
Qed.

Section SumsWithoutLaws.

Variable M : Type.
Variable op : M -> M -> M.
Variable e : M.

Local Abbreviation sumM := (msum op e).
Local Abbreviation pair_sumM := (pair_sum op e).

Lemma msum_cons : forall a l, sumM (a :: l) = op a (sumM l).
Proof. reflexivity. Qed.

Lemma msum_map_ext :
  forall (A : Type) (f g : A -> M) (l : list A),
    (forall a, In a l -> f a = g a) -> sumM (map f l) = sumM (map g l).
Proof. intros A f g l H. f_equal. now apply map_ext_in. Qed.

Lemma pair_sum_ext :
  forall (A : Type) (v w : A -> A -> M) (l : list A),
    (forall a b, In a l -> In b l -> v a b = w a b) -> pair_sumM v l = pair_sumM w l.
Proof.
  intros A v w l. induction l as [|a l IH]; intro H; simpl; [reflexivity|].
  f_equal.
  - apply msum_map_ext. intros b Hb. apply H; simpl; auto.
  - apply IH. intros x y Hx Hy. apply H; simpl; auto.
Qed.

End SumsWithoutLaws.

Arguments msum_cons {M op e}.
Arguments msum_map_ext {M op e A}.
Arguments pair_sum_ext {M op e A}.

Section CommutativeMonoid.

Variable M : Type.
Variable op : M -> M -> M.
Variable e : M.
Hypothesis laws : commutative_monoid op e.

Local Abbreviation sumM := (msum op e).
Local Abbreviation whenM := (when e).
Local Abbreviation pair_sumM := (pair_sum op e).

Lemma op_assoc : forall a b c, op a (op b c) = op (op a b) c.
Proof. apply laws. Qed.

Lemma op_comm : forall a b, op a b = op b a.
Proof. apply laws. Qed.

Lemma op_e_r : forall a, op a e = a.
Proof. apply laws. Qed.



Lemma op_e_l : forall a, op e a = a.
Proof. intro a. rewrite op_comm. apply op_e_r. Qed.

Lemma msum_app : forall l1 l2, sumM (l1 ++ l2) = op (sumM l1) (sumM l2).
Proof.
  induction l1 as [|a l1 IH]; intro l2; simpl.
  - now rewrite op_e_l.
  - now rewrite IH, op_assoc.
Qed.

Lemma msum_map_op :
  forall (A : Type) (f g : A -> M) (l : list A),
    sumM (map (fun a => op (f a) (g a)) l) = op (sumM (map f l)) (sumM (map g l)).
Proof.
  intros A f g l. induction l as [|a l IH]; simpl.
  - now rewrite op_e_r.
  - rewrite IH.
    rewrite <- !op_assoc. f_equal.
    rewrite !op_assoc. f_equal. apply op_comm.
Qed.

Lemma msum_map_neutral :
  forall (A : Type) (f : A -> M) (l : list A),
    (forall a, In a l -> f a = e) -> sumM (map f l) = e.
Proof.
  intros A f l. induction l as [|a l IH]; intro H; simpl; [reflexivity|].
  rewrite (H a (or_introl eq_refl)), op_e_l. apply IH. intros b Hb. apply H. now right.
Qed.

Lemma msum_flat_map :
  forall (A B : Type) (g : A -> list B) (w : B -> M) (l : list A),
    sumM (map w (flat_map g l)) = sumM (map (fun a => sumM (map w (g a))) l).
Proof.
  intros A B g w l. induction l as [|a l IH]; simpl; [reflexivity|].
  now rewrite map_app, msum_app, IH.
Qed.

Lemma msum_filter :
  forall (A : Type) (c : A -> bool) (w : A -> M) (l : list A),
    sumM (map w (filter c l)) = sumM (map (fun a => whenM (c a) (w a)) l).
Proof.
  intros A c w l. induction l as [|a l IH]; simpl; [reflexivity|].
  destruct (c a); simpl; rewrite IH; [reflexivity | now rewrite op_e_l].
Qed.

(** Dropping the elements that contribute nothing leaves a sum unchanged. *)
Lemma msum_skip :
  forall (A : Type) (keep : A -> bool) (f : A -> M) (l : list A),
    (forall a, keep a = false -> f a = e) ->
    sumM (map f (filter keep l)) = sumM (map f l).
Proof.
  intros A keep f l H. rewrite msum_filter. apply msum_map_ext.
  intros a _. unfold when. destruct (keep a) eqn:K; [reflexivity|].
  symmetry. now apply H.
Qed.

Lemma pair_sum_neutral :
  forall (A : Type) (v : A -> A -> M) (l : list A),
    (forall a b, In a l -> In b l -> v a b = e) -> pair_sumM v l = e.
Proof.
  intros A v l. induction l as [|a l IH]; intro H; simpl; [reflexivity|].
  rewrite msum_map_neutral, op_e_l.
  - apply IH. intros x y Hx Hy. apply H; simpl; auto.
  - intros b Hb. apply H; simpl; auto.
Qed.

(** Elements that contribute nothing, on either side of a pair, can be
    dropped from a sum over pairs. *)
Lemma pair_sum_skip :
  forall (A : Type) (keep : A -> bool) (v : A -> A -> M) (l : list A),
    (forall a b, keep a = false -> v a b = e) ->
    (forall a b, keep b = false -> v a b = e) ->
    pair_sumM v (filter keep l) = pair_sumM v l.
Proof.
  intros A keep v l Hl Hr. induction l as [|a l IH]; simpl; [reflexivity|].
  destruct (keep a) eqn:K; simpl.
  - rewrite IH. f_equal. apply msum_skip. intros b Hb. now apply Hr.
  - rewrite IH. rewrite msum_map_neutral; [now rewrite op_e_l|].
    intros b _. now apply Hl.
Qed.

Lemma pair_sum_unordered_pairs :
  forall (A : Type) (v : A -> A -> M) (l : list A),
    pair_sumM v l = sumM (map (fun p => v (fst p) (snd p)) (unordered_pairs l)).
Proof.
  intros A v l. induction l as [|a l IH]; simpl; [reflexivity|].
  rewrite map_app, msum_app, map_map, IH. reflexivity.
Qed.

(** A loop whose body adds [v a] to the accumulator computes a sum. *)
Lemma for_loop_sum :
  forall (A : Type) (body : M -> A -> Py.result M) (v : A -> M) (l : list A),
    (forall s a, In a l -> body s a = Py.Ok (op s (v a))) ->
    forall s, Py.for_loop l body s = Py.Ok (op s (sumM (map v l))).
Proof.
  intros A body v l. induction l as [|a l IH]; intros H s; simpl.
  - now rewrite op_e_r.
  - rewrite (H s a (or_introl eq_refl)). simpl.
    rewrite IH by (intros s0 a0 Hin; apply H; now right).
    now rewrite op_assoc.
Qed.

(** The doubly nested index loop of the API layer computes a sum over the
    pairs of positions [i < j]. *)
Lemma pair_loop_sum_from :
  forall (body : M -> BuildingPlacement.t -> BuildingPlacement.t -> Py.result M)
         (v : BuildingPlacement.t -> BuildingPlacement.t -> M)
         (l pre : list BuildingPlacement.t),
    (forall s a b, In a l -> In b l -> body s a b = Py.Ok (op s (v a b))) ->
    forall s,
      Py.for_loop (seq (List.length pre) (List.length l))
        (fun acc i =>
           Py.for_loop (Py.range (i + 1) (List.length (pre ++ l)))
             (fun acc j =>
                bp1 <- Py.getitem (pre ++ l) i ;;
                bp2 <- Py.getitem (pre ++ l) j ;;
                body acc bp1 bp2) acc) s
      = Py.Ok (op s (pair_sumM v l)).
Proof.
  intros body v l. induction l as [|a l IH]; intros pre H s.
  - simpl. now rewrite op_e_r.
  - cbn [List.length seq Py.for_loop].
    assert (Hinner :
      Py.for_loop (Py.range (List.length pre + 1) (List.length (pre ++ a :: l)))
        (fun acc j =>
           bp1 <- Py.getitem (pre ++ a :: l) (List.length pre) ;;
           bp2 <- Py.getitem (pre ++ a :: l) j ;;
           body acc bp1 bp2) s
      = Py.Ok (op s (sumM (map (v a) l)))).
    { unfold Py.range. rewrite length_app. cbn [List.length].
      replace (List.length pre + S (List.length l) - (List.length pre + 1))
        with (List.length l) by lia.
      replace (List.length pre + 1) with (List.length (pre ++ [a]))
        by (rewrite length_app; reflexivity).
      replace (pre ++ a :: l) with ((pre ++ [a]) ++ l)
        by (rewrite <- app_assoc; reflexivity).
      rewrite (for_loop_ext _ _ _
                 (fun acc j => x <- Py.getitem ((pre ++ [a]) ++ l) j ;; body acc a x)).
      - rewrite for_loop_positions. apply for_loop_sum.
        intros s0 b Hb. apply H; simpl; auto.
      - intros s0 j _. unfold Py.getitem at 1.
        rewrite <- app_assoc. cbn [app].
        rewrite nth_error_app2 by lia. rewrite Nat.sub_diag. reflexivity. }
    rewrite Hinner. cbn [Py.bind].
    specialize (IH (pre ++ [a])).
    rewrite length_app in IH. cbn [List.length] in IH.
    rewrite Nat.add_1_r in IH.
    replace ((pre ++ [a]) ++ l) with (pre ++ a :: l) in IH
      by (rewrite <- app_assoc; reflexivity).
    rewrite IH by (intros s0 x y Hx Hy; apply H; simpl; auto).
    cbn [pair_sum]. now rewrite op_assoc.
Qed.

Lemma pair_loop_sum :
  forall (body : M -> BuildingPlacement.t -> BuildingPlacement.t -> Py.result M)
         (v : BuildingPlacement.t -> BuildingPlacement.t -> M)
         (l : list BuildingPlacement.t),
    (forall s a b, In a l -> In b l -> body s a b = Py.Ok (op s (v a b))) ->
    forall s, App.pair_loop l body s = Py.Ok (op s (pair_sumM v l)).
Proof.
  intros body v l H s. unfold App.pair_loop, Py.range at 1.
  rewrite Nat.sub_0_r.
  exact (pair_loop_sum_from body v l [] H s).
Qed.

(** The framework's unique pairs (smaller planning id first) carry the same
    sum as the pairs of positions, when the ids are pairwise distinct and the
    summand does not depend on the order inside a pair. *)
Lemma unique_pairs_as_double_sum :
  forall (w : BuildingPlacement.t * BuildingPlacement.t -> M)
         (l1 l2 : list BuildingPlacement.t),
    sumM (map w
            (flat_map (fun a =>
               flat_map (fun b =>
                 if (BuildingPlacement.id a <? BuildingPlacement.id b)%Z
                 then [(a, b)] else []) l2) l1))
    = sumM (map (fun a =>
              sumM (map (fun b =>
                whenM (BuildingPlacement.id a <? BuildingPlacement.id b)%Z (w (a, b)))
                l2)) l1).
Proof.
  intros w l1 l2. rewrite msum_flat_map. apply msum_map_ext. intros a _.
  rewrite msum_flat_map. apply msum_map_ext. intros b _.
  unfold when. destruct (BuildingPlacement.id a <? BuildingPlacement.id b)%Z; simpl.
  - apply op_e_r.
  - reflexivity.
Qed.

Lemma unique_pair_sum :
  forall (w : BuildingPlacement.t * BuildingPlacement.t -> M)
         (l : list BuildingPlacement.t),
    (forall a b, w (a, b) = w (b, a)) ->
    NoDup (map BuildingPlacement.id l) ->
    sumM (map w (Constraints.for_each_unique_pair l))
    = pair_sumM (fun a b => w (a, b)) l.
Proof.
  intros w l Hsym. unfold Constraints.for_each_unique_pair.
  rewrite unique_pairs_as_double_sum.
  induction l as [|a l IH]; intro Hnd; [reflexivity|].
  inversion Hnd as [|? ? Hnotin Hnd']; subst.
  cbn [map pair_sum]. rewrite !msum_cons.
  rewrite Z.ltb_irrefl. unfold when at 1. rewrite op_e_l.
  rewrite (msum_map_ext
             (fun a' =>
                sumM (map (fun b =>
                  whenM (BuildingPlacement.id a' <? BuildingPlacement.id b)%Z
                    (w (a', b))) (a :: l)))
             (fun a' =>
                op (whenM (BuildingPlacement.id a' <? BuildingPlacement.id a)%Z (w (a', a)))
                   (sumM (map (fun b =>
                      whenM (BuildingPlacement.id a' <? BuildingPlacement.id b)%Z
                        (w (a', b))) l)))) by reflexivity.
  rewrite msum_map_op. rewrite IH by assumption.
  rewrite op_assoc. f_equal.
  rewrite <- msum_map_op. apply msum_map_ext.
  intros b Hb.
  assert (Hne : BuildingPlacement.id a <> BuildingPlacement.id b).
  { intro Heq. apply Hnotin. rewrite Heq. now apply in_map. }
  unfold when.
  destruct (Z.ltb_spec (BuildingPlacement.id a) (BuildingPlacement.id b)) as [Hlt|Hge];
    destruct (Z.ltb_spec (BuildingPlacement.id b) (BuildingPlacement.id a)) as [Hlt'|Hge'];
    try lia.
  - apply op_e_r.
  - rewrite op_e_l. apply Hsym.
Qed.

(** Entities that contribute nothing can be left out of the stream of unique
    pairs. *)
Lemma unique_pair_sum_skip :
  forall (w : BuildingPlacement.t * BuildingPlacement.t -> M)
         (keep : BuildingPlacement.t -> bool) (l : list BuildingPlacement.t),
    (forall a b, keep a = false -> w (a, b) = e) ->
    (forall a b, keep b = false -> w (a, b) = e) ->
    sumM (map w (Constraints.for_each_unique_pair (filter keep l)))
    = sumM (map w (Constraints.for_each_unique_pair l)).
Proof.
  intros w keep l Hl Hr. unfold Constraints.for_each_unique_pair.
  rewrite !unique_pairs_as_double_sum.
  rewrite msum_skip.
  - apply msum_map_ext. intros a _. apply msum_skip.
    intros b Hb. rewrite (Hr a b Hb). unfold when.
    now destruct (BuildingPlacement.id a <? BuildingPlacement.id b)%Z.
  - intros a Ha. apply msum_map_neutral. intros b _. rewrite (Hl a b Ha).
    unfold when. now destruct (BuildingPlacement.id a <? BuildingPlacement.id b)%Z.
Qed.

End CommutativeMonoid.

Lemma Z_laws : commutative_monoid Z.add 0%Z.
Proof. repeat split; intros; lia. Qed.

Lemma R_laws : commutative_monoid Rplus 0%R.
Proof. repeat split; intros; lra. Qed.

Notation "'over_Z' L" := (L Z Z.add 0%Z Z_laws)
  (at level 10, L at level 9, only parsing).
Notation "'over_R' L" := (L R Rplus 0%R R_laws)
  (at level 10, L at level 9, only parsing).

(** Counting the elements that pass a test is summing ones. *)
Lemma count_as_sum :
  forall (A : Type) (c : A -> bool) (l : list A),
    Z.of_nat (List.length (filter c l))
    = msum Z.add 0%Z (map (fun a => when 0%Z (c a) 1%Z) l).
Proof.
  intros A c l. unfold msum. induction l as [|a l IH]; [reflexivity|].
  cbn [filter map fold_right]. unfold when at 1.
  destruct (c a); cbn [List.length]; lia.
Qed.

(** ** The breakdown of the API layer, loops removed *)

Lemma distance_body :
  forall (test : BuildingPlacement.t -> BuildingPlacement.t -> bool)
         (s : R) (a b : BuildingPlacement.t),
    (if App.both_assigned a b then
       if test a b then d <- Constraints.calc_distance a b ;; Py.Ok (s + d)%R
       else Py.Ok s
     else Py.Ok s)
    = Py.Ok (s + when 0 (App.both_assigned a b && test a b) (distance a b))%R.
Proof.
  intros test s a b.
  unfold App.both_assigned, Constraints.calc_distance, distance, when.
  destruct (BuildingPlacement.location a), (BuildingPlacement.location b);
    simpl; try (f_equal; lra).
  destruct (test a b); simpl; f_equal; lra.
Qed.

(** [get_score_breakdown] never raises, and its six entries are these sums. *)
Lemma get_score_breakdown_value :
  forall (Score : Type) (solution : CityPlanSolution.t Score),
    App.get_score_breakdown solution
    = Py.Ok (breakdown_value (CityPlanSolution.building_placement_list solution)).
Proof.
  intros Score solution. unfold App.get_score_breakdown. cbv zeta.
  set (ps := CityPlanSolution.building_placement_list solution).
  rewrite (over_Z for_loop_sum _ _ (fun bp => when 0%Z (App.disallowed_test bp) 1%Z))
    by (intros s a _; unfold when; destruct (App.disallowed_test a); f_equal; lia).
  cbn [Py.bind].
  rewrite (over_Z for_loop_sum _ _ (fun bp => when 0%Z (App.zoning_test bp) 1%Z))
    by (intros s a _; unfold when; destruct (App.zoning_test a); f_equal; lia).
  cbn [Py.bind].
  rewrite (over_Z pair_loop_sum _ (fun a b => when 0%Z (App.uniqueness_test a b) 1%Z))
    by (intros s a b _ _; unfold when; destruct (App.uniqueness_test a b); f_equal; lia).
  cbn [Py.bind].
  rewrite (over_R pair_loop_sum _
             (fun a b =>
                when 0%R (App.both_assigned a b && App.house_school_test a b)
                  (distance a b)))
    by (intros s a b _ _; apply distance_body).
  cbn [Py.bind].
  rewrite (over_R pair_loop_sum _
             (fun a b =>
                when 0%R (App.both_assigned a b && App.house_office_test a b)
                  (distance a b)))
    by (intros s a b _ _; apply distance_body).
  cbn [Py.bind].
  rewrite (over_R for_loop_sum _ _ cost)
    by (intros s a _; unfold cost; destruct (BuildingPlacement.location a);
        f_equal; lra).
  cbn [Py.bind].
  unfold breakdown_value. rewrite !Z.add_0_l, !Rplus_0_l. reflexivity.
Qed.

(** ** The constraints of the score director, loops removed *)

Lemma penalize_ONE_HARD_value :
  forall (A : Type) (c : A -> bool) (stream : list A),
    Constraints.penalize_ONE_HARD (filter c stream)
    = Py.Ok ((- msum Z.add 0 (map (fun a => when 0 (c a) 1) stream))%Z, 0%Z).
Proof.
  intros A c stream. unfold Constraints.penalize_ONE_HARD.
  now rewrite count_as_sum.
Qed.

Lemma penalize_ONE_SOFT_value :
  forall (A : Type) (c : A -> bool) (weigher : A -> Py.result R) (v : A -> R)
         (stream : list A),
    (forall a, c a = true -> weigher a = Py.Ok (v a)) ->
    Constraints.penalize_ONE_SOFT weigher (filter c stream)
    = Py.Ok (0%Z,
             (- msum Z.add 0 (map (fun a => when 0 (c a) (Py.trunc (v a))) stream))%Z).
Proof.
  intros A c weigher v stream H. unfold Constraints.penalize_ONE_SOFT.
  rewrite (over_Z for_loop_sum _ _ (fun a => Py.trunc (v a))).
  - cbn [Py.bind]. rewrite Z.add_0_l. now rewrite (over_Z msum_filter).
  - intros s a Ha. apply filter_In in Ha. destruct Ha as [_ Ha].
    now rewrite (H a Ha).
Qed.

Lemma calc_distance_assigned :
  forall a b,
    is_not_None (BuildingPlacement.location a) = true ->
    is_not_None (BuildingPlacement.location b) = true ->
    Constraints.calc_distance a b = Py.Ok (distance a b).
Proof.
  intros a b Ha Hb. unfold Constraints.calc_distance, distance.
  destruct (BuildingPlacement.location a), (BuildingPlacement.location b);
    try discriminate; reflexivity.
Qed.

Lemma house_school_weigher :
  forall p, Constraints.house_school_filter p = true ->
            Constraints.calc_distance (fst p) (snd p) = Py.Ok (distance (fst p) (snd p)).
Proof.
  intros [a b] H. unfold Constraints.house_school_filter in H.
  apply Bool.andb_true_iff in H. destruct H as [H Hb].
  apply Bool.andb_true_iff in H. destruct H as [_ Ha].
  now apply calc_distance_assigned.
Qed.

Lemma house_office_weigher :
  forall p, Constraints.house_office_filter p = true ->
            Constraints.calc_distance (fst p) (snd p) = Py.Ok (distance (fst p) (snd p)).
Proof.
  intros [a b] H. unfold Constraints.house_office_filter in H.
  apply Bool.andb_true_iff in H. destruct H as [H Hb].
  apply Bool.andb_true_iff in H. destruct H as [_ Ha].
  now apply calc_distance_assigned.
Qed.

Lemma cost_weigher_assigned :
  forall bp, Constraints.cost_filter bp = true ->
             Constraints.cost_weigher bp = Py.Ok (cost bp).
Proof.
  intros bp H. unfold Constraints.cost_filter in H.
  unfold Constraints.cost_weigher, cost.
  destruct (BuildingPlacement.location bp); [reflexivity | discriminate].
Qed.

Lemma constraints_in_breakdown_order_perm :
  forall cf,
    Permutation (Constraints.define_constraints cf) (constraints_in_breakdown_order cf).
Proof.
  intro cf. unfold Constraints.define_constraints, constraints_in_breakdown_order.
  apply perm_skip.
  apply Permutation_trans with
    (l' := [ Constraints.build_zoning_mismatch_constraint cf;
             Constraints.build_house_school_distance_constraint cf;
             Constraints.build_house_office_distance_constraint cf;
             Constraints.build_location_uniqueness_constraint cf;
             Constraints.build_cost_constraint cf ]).
  - apply Permutation_sym.
    apply (Permutation_middle
             [ Constraints.build_house_school_distance_constraint cf;
               Constraints.build_house_office_distance_constraint cf ]).
  - apply perm_skip.
    apply Permutation_sym.
    apply (Permutation_middle
             [ Constraints.build_house_school_distance_constraint cf;
               Constraints.build_house_office_distance_constraint cf ]).
Qed.

(** No weigher raises on a match, and the six amounts are these sums. *)
Lemma define_constraints_value :
  forall cf,
    map named_impact (constraints_in_breakdown_order cf) = constraints_value cf.
Proof.
  intro cf. unfold constraints_in_breakdown_order, constraints_value, named_impact.
  cbn [map Constraints.constraint_name Constraints.impact
         Constraints.build_disallowed_location_constraint
         Constraints.build_zoning_mismatch_constraint
         Constraints.build_location_uniqueness_constraint
         Constraints.build_house_school_distance_constraint
         Constraints.build_house_office_distance_constraint
         Constraints.build_cost_constraint].
  rewrite !penalize_ONE_HARD_value.
  rewrite (penalize_ONE_SOFT_value _ Constraints.house_school_filter _
             (fun p => distance (fst p) (snd p))) by apply house_school_weigher.
  rewrite (penalize_ONE_SOFT_value _ Constraints.house_office_filter _
             (fun p => distance (fst p) (snd p))) by apply house_office_weigher.
  rewrite (penalize_ONE_SOFT_value _ Constraints.cost_filter _ cost)
    by apply cost_weigher_assigned.
  reflexivity.
Qed.

(** ** Signs of the penalties *)

Lemma Zsum_nonneg :
  forall (A : Type) (f : A -> Z) (l : list A),
    (forall a, In a l -> (0 <= f a)%Z) -> (0 <= msum Z.add 0 (map f l))%Z.
Proof.
  intros A f l. unfold msum. induction l as [|a l IH]; intro H; simpl; [lia|].
  assert (0 <= f a)%Z by (apply H; now left).
  assert (0 <= fold_right Z.add 0 (map f l))%Z by (apply IH; intros; apply H; now right).
  lia.
Qed.

Lemma Rsum_nonneg :
  forall (A : Type) (f : A -> R) (l : list A),
    (forall a, In a l -> (0 <= f a)%R) -> (0 <= msum Rplus 0 (map f l))%R.
Proof.
  intros A f l. unfold msum. induction l as [|a l IH]; intro H; simpl; [lra|].
  assert (0 <= f a)%R by (apply H; now left).
  assert (0 <= fold_right Rplus 0 (map f l))%R by (apply IH; intros; apply H; now right).
  lra.
Qed.



Lemma distance_nonneg : forall a b, (0 <= distance a b)%R.
Proof.
  intros a b. unfold distance, Constraints.dist.
  destruct (BuildingPlacement.location a), (BuildingPlacement.location b);
    try lra; apply sqrt_pos.
Qed.

Lemma distance_sym : forall a b, distance a b = distance b a.
Proof.
  intros a b. unfold distance, Constraints.dist.
  destruct (BuildingPlacement.location a), (BuildingPlacement.location b);
    try reflexivity.
  simpl. f_equal. ring.
Qed.

Lemma when_distance_nonneg : forall c a b, (0 <= when 0 c (distance a b))%R.
Proof.
  intros c a b. unfold when. destruct c; [apply distance_nonneg | lra].
Qed.

Lemma when_one_nonneg : forall c : bool, (0 <= when 0 c 1)%Z.
Proof. intros []; unfold when; lia. Qed.


(** ** Unassigned placements *)

Lemma unassigned_location :
  forall bp, assigned bp = false -> BuildingPlacement.location bp = None.
Proof.
  intros bp H. unfold assigned in H.
  destruct (BuildingPlacement.location bp); [discriminate | reflexivity].
Qed.

Ltac unassigned_case :=
  match goal with
  | H : assigned ?bp = false |- _ =>
      let E := fresh "E" in
      pose proof (unassigned_location bp H) as E;
      unfold when, cost, distance,
        App.disallowed_test, App.zoning_test, App.uniqueness_test, App.both_assigned,
        Constraints.disallowed_location_filter, Constraints.zoning_mismatch_filter,
        Constraints.location_uniqueness_filter, Constraints.house_school_filter,
        Constraints.house_office_filter, Constraints.cost_filter;
      cbn [fst snd]; rewrite ?E; cbn [Py.truthy is_not_None location_eq andb];
      rewrite ?Bool.andb_false_r; try reflexivity
  end.

Lemma breakdown_value_skip :
  forall ps, breakdown_value (filter assigned ps) = breakdown_value ps.
Proof.
  intro ps. unfold breakdown_value.
  rewrite !(over_Z msum_skip) by (intros a Ha; unassigned_case).
  rewrite (over_Z pair_sum_skip)
    by (intros a b H; unassigned_case;
        destruct (BuildingPlacement.location a); reflexivity).
  rewrite !(over_R pair_sum_skip)
    by (intros a b H; unassigned_case;
        destruct (BuildingPlacement.location a); reflexivity).
  rewrite (over_R msum_skip) by (intros a Ha; unassigned_case).
  reflexivity.
Qed.

Lemma constraints_value_skip :
  forall cf, constraints_value (filter assigned cf) = constraints_value cf.
Proof.
  intro cf. unfold constraints_value, Constraints.for_each.
  rewrite !(over_Z msum_skip) by (intros a Ha; unassigned_case).
  rewrite (over_Z unique_pair_sum_skip)
    by (intros a b H; unassigned_case;
        destruct (BuildingPlacement.location a); reflexivity).
  rewrite !(over_Z unique_pair_sum_skip)
    by (intros a b H; unassigned_case;
        repeat match goal with
               | |- context [BuildingPlacement.location ?x] =>
                   destruct (BuildingPlacement.location x)
               | |- context [BuildingType.eqb ?x ?y] => destruct (BuildingType.eqb x y)
               end; reflexivity).
  reflexivity.
Qed.

(** [define_constraints] lists the constraints in its own order. *)
Lemma define_constraints_value_in_source_order :
  forall cf,
    map named_impact (Constraints.define_constraints cf)
    = match constraints_value cf with
      | [c1; c2; c3; c4; c5; c6] => [c1; c4; c5; c2; c3; c6]
      | _ => []
      end.
Proof.
  intro cf. rewrite <- define_constraints_value. reflexivity.
Qed.

(** C4. A placement without a location contributes nothing to any of the six
    constraints: the breakdown of a solution is the breakdown of the solution
    with its unassigned placements removed, and so are the amounts of the six
    constraints of [define_constraints]. *)
Theorem unassigned_contribute_nothing :
  forall (Score : Type) (solution : CityPlanSolution.t Score),
    (exists bd,
        App.get_score_breakdown solution = Py.Ok bd
        /\ App.get_score_breakdown (without_unassigned solution) = Py.Ok bd)
    /\ map named_impact
         (Constraints.define_constraints
            (CityPlanSolution.building_placement_list solution))
       = map named_impact
           (Constraints.define_constraints
              (CityPlanSolution.building_placement_list (without_unassigned solution))).
Proof.
  intros Score solution. split.
  - exists (breakdown_value (CityPlanSolution.building_placement_list solution)).
    rewrite !get_score_breakdown_value. split; [reflexivity|].
    unfold without_unassigned. cbn [CityPlanSolution.building_placement_list].
    now rewrite breakdown_value_skip.
  - rewrite !define_constraints_value_in_source_order.
    unfold without_unassigned. cbn [CityPlanSolution.building_placement_list].
    now rewrite constraints_value_skip.
Qed.

(** ** The API layer against the score director's constraints *)

Lemma location_uniqueness_filter_sym :
  forall a b,
    Constraints.location_uniqueness_filter (a, b)
    = Constraints.location_uniqueness_filter (b, a).
Proof.
  intros a b. unfold Constraints.location_uniqueness_filter.
  destruct (BuildingPlacement.location a) as [la|],
           (BuildingPlacement.location b) as [lb|]; simpl; try reflexivity.
  apply Location_eqb_sym.
Qed.

Lemma location_uniqueness_filter_test :
  forall a b,
    Constraints.location_uniqueness_filter (a, b) = App.uniqueness_test a b.
Proof.
  intros a b. unfold Constraints.location_uniqueness_filter, App.uniqueness_test.
  destruct (BuildingPlacement.location a) as [la|],
           (BuildingPlacement.location b) as [lb|]; reflexivity.
Qed.

Lemma house_school_filter_sym :
  forall a b,
    Constraints.house_school_filter (a, b) = Constraints.house_school_filter (b, a).
Proof.
  intros a b. unfold Constraints.house_school_filter.
  destruct (BuildingPlacement.building_type a), (BuildingPlacement.building_type b),
           (BuildingPlacement.location a), (BuildingPlacement.location b); reflexivity.
Qed.

Lemma house_school_filter_test :
  forall a b,
    Constraints.house_school_filter (a, b)
    = App.both_assigned a b && App.house_school_test a b.
Proof.
  intros a b.
  unfold Constraints.house_school_filter, App.both_assigned, App.house_school_test.
  destruct (BuildingPlacement.building_type a), (BuildingPlacement.building_type b),
           (BuildingPlacement.location a), (BuildingPlacement.location b); reflexivity.
Qed.

Lemma house_office_filter_sym :
  forall a b,
    Constraints.house_office_filter (a, b) = Constraints.house_office_filter (b, a).
Proof.
  intros a b. unfold Constraints.house_office_filter.
  destruct (BuildingPlacement.building_type a), (BuildingPlacement.building_type b),
           (BuildingPlacement.location a), (BuildingPlacement.location b); reflexivity.
Qed.

Lemma house_office_filter_test :
  forall a b,
    Constraints.house_office_filter (a, b)
    = App.both_assigned a b && App.house_office_test a b.
Proof.
  intros a b.
  unfold Constraints.house_office_filter, App.both_assigned, App.house_office_test.
  destruct (BuildingPlacement.building_type a), (BuildingPlacement.building_type b),
           (BuildingPlacement.location a), (BuildingPlacement.location b); reflexivity.
Qed.


(** ** Location uniqueness *)

Ltac eval_string_tests :=
  repeat match goal with
         | |- context [String.eqb ?a ?b] =>
             let r := eval vm_compute in (String.eqb a b) in
             change (String.eqb a b) with r
         end;
  cbv iota.

Lemma uniqueness_test_shares :
  forall a b, App.uniqueness_test a b = Spec.shares_location (a, b).
Proof.
  intros a b. unfold App.uniqueness_test, Spec.shares_location, location_eq. simpl.
  destruct (BuildingPlacement.location a), (BuildingPlacement.location b); reflexivity.
Qed.

Lemma uniqueness_sum_count :
  forall ps,
    pair_sum Z.add 0%Z (fun a b => when 0%Z (App.uniqueness_test a b) 1%Z) ps
    = Z.of_nat (List.length (filter Spec.shares_location (unordered_pairs ps))).
Proof.
  intro ps. rewrite (over_Z pair_sum_unordered_pairs), count_as_sum.
  apply msum_map_ext. intros [a b] _. simpl. now rewrite uniqueness_test_shares.
Qed.

Lemma filter_map_pair :
  forall (A : Type) (c : A * A -> bool) (a : A) (l : list A),
    List.length (filter c (map (pair a) l))
    = List.length (filter (fun b => c (a, b)) l).
Proof.
  intros A c a l. induction l as [|b l IH]; simpl; [reflexivity|].
  destruct (c (a, b)); simpl; now rewrite IH.
Qed.

(** Among [k] elements that pass a test there are [k * (k - 1) / 2] pairs. *)
Lemma pairs_of_selected_twice :
  forall (A : Type) (P : A -> bool) (l : list A),
    2 * List.length (filter (fun p => P (fst p) && P (snd p)) (unordered_pairs l))
    = List.length (filter P l) * (List.length (filter P l) - 1).
Proof.
  intros A P l. induction l as [|a l IH]; [reflexivity|].
  cbn [unordered_pairs]. rewrite filter_app, length_app, filter_map_pair.
  cbn [filter fst snd]. destruct (P a); cbn [andb List.length].
  - change (filter (fun b : A => P b) l) with (filter P l). nia.
  - assert (H0 : forall m : list A, List.length (filter (fun _ => false) m) = 0)
      by (induction m; auto).
    rewrite H0. lia.
Qed.

Lemma pairs_of_selected :
  forall (A : Type) (P : A -> bool) (l : list A),
    List.length (filter (fun p => P (fst p) && P (snd p)) (unordered_pairs l))
    = List.length (filter P l) * (List.length (filter P l) - 1) / 2.
Proof.
  intros A P l. rewrite <- pairs_of_selected_twice.
  rewrite Nat.mul_comm, Nat.div_mul; [reflexivity | discriminate].
Qed.

Lemma shares_at_location :
  forall L p,
    Spec.shares_location p && Spec.placed_at L (fst p)
    = Spec.placed_at L (fst p) && Spec.placed_at L (snd p).
Proof.
  intros L [a b]. unfold Spec.shares_location, Spec.placed_at. simpl.
  destruct (BuildingPlacement.location a) as [la|], (BuildingPlacement.location b) as [lb|];
    simpl; try reflexivity.
  - destruct (Location.eqb la L) eqn:E1.
    + apply Location_eqb_eq in E1. subst la. rewrite Bool.andb_true_r.
      apply Location_eqb_sym.
    + rewrite Bool.andb_false_r. reflexivity.
  - now rewrite Bool.andb_false_r.
Qed.

Lemma no_share_outside :
  forall a l,
    (forall la, BuildingPlacement.location a = Some la ->
                ~ In la (Spec.assigned_locations l)) ->
    filter (fun b => Spec.shares_location (a, b)) l = [].
Proof.
  intros a l H. induction l as [|b l IH]; [reflexivity|].
  cbn [filter]. unfold Spec.shares_location at 1. cbn [fst snd].
  destruct (BuildingPlacement.location a) as [la|] eqn:Ea.
  - destruct (BuildingPlacement.location b) as [lb|] eqn:Eb.
    + destruct (Location.eqb la lb) eqn:E.
      * exfalso. apply Location_eqb_eq in E. subst lb.
        apply (H la eq_refl). unfold Spec.assigned_locations. cbn [flat_map].
        rewrite Eb. now left.
      * apply IH. intros la' Hla' Hin. apply (H la' Hla').
        unfold Spec.assigned_locations. cbn [flat_map]. rewrite Eb. now right.
    + apply IH. intros la' Hla' Hin. apply (H la' Hla').
      unfold Spec.assigned_locations. cbn [flat_map]. now rewrite Eb.
  - apply IH. intros la' Hla'. discriminate.
Qed.

Lemma distinct_locations_no_violation :
  forall ps,
    NoDup (Spec.assigned_locations ps) ->
    filter Spec.shares_location (unordered_pairs ps) = [].
Proof.
  induction ps as [|a ps IH]; intro Hnd; [reflexivity|].
  cbn [unordered_pairs]. rewrite filter_app.
  unfold Spec.assigned_locations in Hnd. cbn [flat_map] in Hnd.
  fold (Spec.assigned_locations ps) in Hnd.
  assert (Hmap : filter Spec.shares_location (map (pair a) ps) = []).
  { apply length_zero_iff_nil. rewrite filter_map_pair.
    rewrite no_share_outside; [reflexivity|].
    intros la Hla. rewrite Hla in Hnd. now inversion Hnd. }
  rewrite Hmap. apply IH.
  destruct (BuildingPlacement.location a); [now inversion Hnd | assumption].
Qed.

(** The score director's uniqueness constraint counts the same pairs, when
    the planning ids are pairwise distinct. *)
Lemma uniqueness_constraint_count :
  forall ps,
    NoDup (map BuildingPlacement.id ps) ->
    Constraints.impact (Constraints.build_location_uniqueness_constraint ps)
    = Py.Ok ((- Z.of_nat
                  (List.length (filter Spec.shares_location (unordered_pairs ps))))%Z,
             0%Z).
Proof.
  intros ps Hnd. unfold Constraints.build_location_uniqueness_constraint.
  cbn [Constraints.impact]. rewrite penalize_ONE_HARD_value.
  rewrite (over_Z unique_pair_sum
             (fun p => when 0%Z (Constraints.location_uniqueness_filter p) 1%Z))
    by (try assumption; intros a b; now rewrite location_uniqueness_filter_sym).
  rewrite (pair_sum_ext
             (fun a b => when 0%Z (Constraints.location_uniqueness_filter (a, b)) 1%Z)
             (fun a b => when 0%Z (App.uniqueness_test a b) 1%Z))
    by (intros a b _ _; now rewrite location_uniqueness_filter_test).
  now rewrite uniqueness_sum_count.
Qed.

(** C3. The hard penalty of the "Location uniqueness (HARD)" entry is minus
    the number of unordered pairs of placements that are both assigned and
    share a location.  Of these pairs, those at a location [L] number
    [k * (k - 1) / 2] when [k] placements are assigned to [L]; and when the
    locations of the assigned placements are pairwise distinct the penalty
    is 0.  The score director's constraint of the same name has the same
    amount when the planning ids are pairwise distinct. *)
Theorem location_uniqueness_penalty :
  forall (Score : Type) (solution : CityPlanSolution.t Score),
    let ps := CityPlanSolution.building_placement_list solution in
    (exists bd,
        App.get_score_breakdown solution = Py.Ok bd
        /\ Spec.entry_named "Location uniqueness (HARD)" bd
           = Some (App.Entry "Location uniqueness (HARD)"
                     (- Z.of_nat
                          (List.length (filter Spec.shares_location (unordered_pairs ps))))
                     0))
    /\ (forall L,
           let k := List.length (filter (Spec.placed_at L) ps) in
           List.length
             (filter (fun p => Spec.shares_location p && Spec.placed_at L (fst p))
                (unordered_pairs ps))
           = k * (k - 1) / 2)
    /\ (NoDup (Spec.assigned_locations ps) ->
        exists bd,
          App.get_score_breakdown solution = Py.Ok bd
          /\ Spec.entry_named "Location uniqueness (HARD)" bd
             = Some (App.Entry "Location uniqueness (HARD)" 0 0))
    /\ (NoDup (map BuildingPlacement.id ps) ->
        Constraints.impact (Constraints.build_location_uniqueness_constraint ps)
        = Py.Ok ((- Z.of_nat
                      (List.length
                         (filter Spec.shares_location (unordered_pairs ps))))%Z,
                 0%Z)).
Proof.
  intros Score solution ps.
  assert (Hentry :
    Spec.entry_named "Location uniqueness (HARD)" (breakdown_value ps)
    = Some (App.Entry "Location uniqueness (HARD)"
              (- Z.of_nat
                   (List.length (filter Spec.shares_location (unordered_pairs ps))))
              0)).
  { unfold Spec.entry_named, breakdown_value. cbn [find App.constraintName].
    eval_string_tests. now rewrite uniqueness_sum_count. }
  split; [|split; [|split]]; [| | |apply uniqueness_constraint_count].
  - exists (breakdown_value ps). split; [apply get_score_breakdown_value | exact Hentry].
  - intros L k. rewrite (filter_ext _ _ (shares_at_location L)).
    apply (pairs_of_selected _ (Spec.placed_at L)).
  - intro Hnd. exists (breakdown_value ps).
    split; [apply get_score_breakdown_value|].
    rewrite Hentry, distinct_locations_no_violation by assumption. reflexivity.
Qed.

(** ** The demo data set: placement 101 on loc4 *)


Lemma sum_count :
  forall (A : Type) (c : A -> bool) (l : list A),
    msum Z.add 0%Z (map (fun a => when 0%Z (c a) 1%Z) l)
    = Z.of_nat (List.length (filter c l)).
Proof. intros. symmetry. apply count_as_sum. Qed.


(** ** The solver that solve.py builds *)

(** C6, evaluated.  [solve_city_plan] runs the solver that [build_solver]
    makes of the factory.  The configuration handed to [create] carries the
    5-second limit and names no phase; "FIRST_FIT" and "TABU_SEARCH" are
    assigned to attributes of the factory object after [create] and end up in
    its instance dictionary, which [build_solver] does not read.  The built
    solver therefore has the 5-second limit and the engine's default phases. *)
Theorem solve_city_plan_configuration :
  (forall (Score : Type)
          (solve : Timefold.Solver -> CityPlanSolution.t Score -> CityPlanSolution.t Score)
          (problem : CityPlanSolution.t Score),
      Solve.solve_city_plan Score solve problem
      = solve (Timefold.build_solver Solve.solver_factory) problem)
  /\ Timefold.time_limit_seconds (Timefold.build_solver Solve.solver_factory) = Some 5%Z
  /\ Timefold.construction_heuristic_type (Timefold.build_solver Solve.solver_factory)
     = None
  /\ Timefold.local_search_type (Timefold.build_solver Solve.solver_factory) = None
  /\ Py.lookup (Timefold.instance_dict Solve.solver_factory) "construction_heuristic_type"
     = Some (Py.PStr "FIRST_FIT")
  /\ Py.lookup (Timefold.instance_dict Solve.solver_factory) "local_search_type"
     = Some (Py.PStr "TABU_SEARCH").
Proof.
  repeat split; intros; reflexivity.
Qed.

(** ** The response *)

(** C8. The "score" field of the response is the score's string form when the
    solution carries a score, and the string "None" when it carries none. *)
Theorem solution_to_dict_score :
  forall (Score : Type) (str : Score -> string) (B : Type)
         (solution : CityPlanSolution.t Score) (breakdown : B),
    App.score (App.solution_to_dict Score str solution breakdown)
    = match CityPlanSolution.score solution with
      | Some sc => str sc
      | None => "None"
      end.
Proof.
  intros Score str B solution breakdown.
  unfold App.solution_to_dict, App.score_text. cbn [App.score].
  destruct (CityPlanSolution.score solution) as [sc|]; reflexivity.
Qed.

(** ** Building a solution from decoded JSON *)

Lemma bind_Ok :
  forall (A B : Type) (c : Py.result A) (k : A -> Py.result B) (v : B),
    Py.bind c k = Py.Ok v -> exists a, c = Py.Ok a /\ k a = Py.Ok v.
Proof.
  intros A B c k v H. destruct c as [a|err]; [|discriminate].
  exists a. split; [reflexivity | exact H].
Qed.

Ltac bind_steps H :=
  repeat (let a := fresh "v" in
          let E := fresh "E" in
          apply bind_Ok in H; destruct H as [a [E H]]).

Lemma for_loop_append :
  forall (A B : Type) (f : A -> Py.result B) (l : list A) (acc : list B),
    Py.for_loop l (fun acc a => x <- f a ;; Py.Ok (acc ++ [x])) acc
    = (ys <- Py.comprehension f l ;; Py.Ok (acc ++ ys)).
Proof.
  intros A B f l. induction l as [|a l IH]; intro acc; simpl.
  - now rewrite app_nil_r.
  - destruct (f a) as [x|err]; simpl; [|reflexivity].
    rewrite IH. destruct (Py.comprehension f l) as [ys|err]; simpl; [|reflexivity].
    now rewrite <- app_assoc.
Qed.

Lemma comprehension_Ok :
  forall (A B : Type) (f : A -> Py.result B) (l : list A) (ys : list B),
    Py.comprehension f l = Py.Ok ys -> Forall2 (fun a y => f a = Py.Ok y) l ys.
Proof.
  intros A B f l. induction l as [|a l IH]; intros ys H; simpl in H.
  - injection H as <-. constructor.
  - bind_steps H. injection H as <-. constructor; [assumption | now apply IH].
Qed.

Lemma comprehension_Raise :
  forall (A B : Type) (f : A -> Py.result B) (l : list A) (a : A) (e : Py.pyerr),
    In a l -> f a = Py.Raise e -> exists e', Py.comprehension f l = Py.Raise e'.
Proof.
  intros A B f l a e Hin Hf. induction l as [|b l IH]; [contradiction|].
  simpl. destruct Hin as [->|Hin].
  - rewrite Hf. eexists. reflexivity.
  - destruct (f b) as [y|err]; simpl; [|eexists; reflexivity].
    destruct (IH Hin) as [e' He']. rewrite He'. eexists. reflexivity.
Qed.

Lemma get_field :
  forall d k default, Py.get (Py.PDict d) k default = Py.Ok (field d k default).
Proof. intros d k default. unfold Py.get, field. now destruct (Py.lookup d k). Qed.

Section BuilderFacts.

Variable Score : Type.
Variable int_of_str : string -> option Z.
Variable float_of_str : string -> option R.

Local Abbreviation build_location := (App.build_location int_of_str float_of_str).
Local Abbreviation build_placement := (App.build_placement int_of_str).
Local Abbreviation build_solution_from_data :=
  (App.build_solution_from_data Score int_of_str float_of_str).

(** The two loops of the builder, as list comprehensions. *)
Lemma build_solution_from_data_dict :
  forall d,
    build_solution_from_data (Py.PDict d)
    = (locs <- Py.iter (field d "locations" (Py.PList [])) ;;
       location_list <- Py.comprehension build_location locs ;;
       blds <- Py.iter (field d "buildings" (Py.PList [])) ;;
       building_list <- Py.comprehension build_placement blds ;;
       Py.Ok (CityPlanSolution.Build (field d "id" (Py.PStr "NoNamePlan"))
                location_list building_list None)).
Proof.
  intro d. unfold App.build_solution_from_data.
  rewrite !get_field. cbn [Py.bind].
  destruct (Py.iter (field d "locations" (Py.PList []))) as [locs|err];
    cbn [Py.bind]; [|reflexivity].
  rewrite for_loop_append.
  destruct (Py.comprehension build_location locs) as [ll|err]; cbn [Py.bind app];
    [|reflexivity].
  destruct (Py.iter (field d "buildings" (Py.PList []))) as [blds|err];
    cbn [Py.bind]; [|reflexivity].
  rewrite for_loop_append.
  destruct (Py.comprehension build_placement blds) as [bl|err]; reflexivity.
Qed.

Lemma build_solution_from_data_not_dict :
  forall data,
    (forall d, data <> Py.PDict d) ->
    build_solution_from_data data = Py.Raise Py.AttributeError.
Proof.
  intros data H. destruct data; try reflexivity. exfalso. now apply (H d).
Qed.

Lemma benchmark_loader_as_builder :
  forall (json_load : string -> Py.result Py.pyval) (path : string) (d : list (string * Py.pyval)),
    json_load path = Py.Ok (Py.PDict d) ->
    Benchmark.load_solution_from_json Score int_of_str float_of_str json_load path
    = (locs <- Py.iter (field d "locations" (Py.PList [])) ;;
       location_list <- Py.comprehension build_location locs ;;
       blds <- Py.iter (field d "buildings" (Py.PList [])) ;;
       building_list <- Py.comprehension build_placement blds ;;
       Py.Ok (CityPlanSolution.Build (field d "id" (Py.PStr "PlanX"))
                location_list building_list None)).
Proof.
  intros json_load path d Hload. unfold Benchmark.load_solution_from_json.
  rewrite Hload. cbn [Py.bind].
  rewrite !get_field. cbn [Py.bind].
  destruct (Py.iter (field d "locations" (Py.PList []))) as [locs|err];
    cbn [Py.bind]; [|reflexivity].
  rewrite for_loop_append.
  destruct (Py.comprehension build_location locs) as [ll|err]; cbn [Py.bind app];
    [|reflexivity].
  destruct (Py.iter (field d "buildings" (Py.PList []))) as [blds|err];
    cbn [Py.bind]; [|reflexivity].
  rewrite for_loop_append.
  destruct (Py.comprehension build_placement blds) as [bl|err]; reflexivity.
Qed.

Lemma build_placement_unassigned :
  forall b p, build_placement b = Py.Ok p -> BuildingPlacement.location p = None.
Proof.
  intros b p H. unfold App.build_placement in H. bind_steps H.
  injection H as <-. reflexivity.
Qed.

Lemma comprehension_unassigned :
  forall blds ps,
    Py.comprehension build_placement blds = Py.Ok ps ->
    List.length ps = List.length blds
    /\ Forall (fun bp => BuildingPlacement.location bp = None) ps.
Proof.
  intros blds ps H. apply comprehension_Ok in H.
  induction H as [|b p blds ps Hb _ IH]; [split; [reflexivity | constructor]|].
  destruct IH as [Hlen Hall]. split; [simpl; now rewrite Hlen|].
  constructor; [now apply (build_placement_unassigned b) | assumption].
Qed.

End BuilderFacts.

Lemma sample_request_builds :
  App.build_solution_from_data unit no_int_of_str no_float_of_str sample_request
  = Py.Ok sample_solution.
Proof. reflexivity. Qed.

Section BuilderClaims.

Variable Score : Type.
Variable int_of_str : string -> option Z.
Variable float_of_str : string -> option R.

Local Abbreviation build_location := (App.build_location int_of_str float_of_str).
Local Abbreviation build_placement := (App.build_placement int_of_str).
Local Abbreviation build_solution_from_data :=
  (App.build_solution_from_data Score int_of_str float_of_str).

Ltac raise_or_step :=
  match goal with
  | |- exists e, Py.Raise _ = Py.Raise e => eexists; reflexivity
  | |- _ => progress cbn [Py.bind]
  | |- exists e, Py.bind ?c _ = Py.Raise e =>
      let E := fresh "E" in
      destruct c eqn:E; cbn [Py.bind]
  end.

Lemma build_location_missing_key :
  forall rec k,
    In k ["id"; "name"; "x"; "y"; "zone"] ->
    Py.lookup rec k = None ->
    exists e, build_location (Py.PDict rec) = Py.Raise e.
Proof.
  intros rec k Hk Hnone. unfold App.build_location, Py.subscript.
  cbn [In] in Hk.
  destruct Hk as [<-|[<-|[<-|[<-|[<-|[]]]]]]; rewrite Hnone; repeat raise_or_step.
Qed.

Lemma build_placement_missing_key :
  forall rec k,
    In k ["id"; "building_type"] ->
    Py.lookup rec k = None ->
    exists e, build_placement (Py.PDict rec) = Py.Raise e.
Proof.
  intros rec k Hk Hnone. unfold App.build_placement, Py.subscript.
  cbn [In] in Hk.
  destruct Hk as [<-|[<-|[]]]; rewrite Hnone; repeat raise_or_step.
Qed.

Lemma build_location_defaults :
  forall rec l,
    build_location (Py.PDict rec) = Py.Ok l ->
    (Py.lookup rec "cost_factor" = None -> Location.cost_factor l = 1%R)
    /\ (Py.lookup rec "allowed_building_types" = None ->
        Location.allowed_building_types l = []).
Proof.
  intros rec l H. unfold App.build_location in H. bind_steps H.
  injection H as <-. cbn [Location.cost_factor Location.allowed_building_types].
  split; intro Hnone.
  - unfold Py.get in *. rewrite Hnone in *.
    repeat match goal with
           | E : Py.Ok _ = Py.Ok _ |- _ => injection E as E; subst
           end.
    match goal with
    | E : Py.float _ (Py.PFloat 1) = Py.Ok _ |- _ => cbn in E; now injection E as <-
    end.
  - unfold Py.get in *. rewrite Hnone in *.
    repeat match goal with
           | E : Py.Ok _ = Py.Ok _ |- _ => injection E as E; subst
           end.
    repeat match goal with
           | E : Py.iter (Py.PList []) = Py.Ok _ |- _ => cbn in E; injection E as E; subst
           | E : Py.comprehension _ [] = Py.Ok _ |- _ => cbn in E; injection E as E; subst
           end.
    reflexivity.
Qed.

(** C7. [build_solution_from_data] gives a location the cost factor 1.0 when
    its record has no "cost_factor" key and the empty list of allowed building
    types when it has no "allowed_building_types" key; when a location record
    lacks "id", "name", "x", "y" or "zone", or a building record lacks "id" or
    "building_type", the function raises. *)
Theorem build_solution_from_data_fields :
  (forall d locs sol,
      Py.lookup d "locations" = Some (Py.PList locs) ->
      build_solution_from_data (Py.PDict d) = Py.Ok sol ->
      Forall2
        (fun rec l =>
           build_location rec = Py.Ok l
           /\ forall fields, rec = Py.PDict fields ->
                (Py.lookup fields "cost_factor" = None -> Location.cost_factor l = 1%R)
                /\ (Py.lookup fields "allowed_building_types" = None ->
                    Location.allowed_building_types l = []))
        locs (CityPlanSolution.location_list sol))
  /\ (forall d locs rec k,
         Py.lookup d "locations" = Some (Py.PList locs) ->
         In (Py.PDict rec) locs ->
         In k ["id"; "name"; "x"; "y"; "zone"] ->
         Py.lookup rec k = None ->
         exists e, build_solution_from_data (Py.PDict d) = Py.Raise e)
  /\ (forall d blds rec k,
         Py.lookup d "buildings" = Some (Py.PList blds) ->
         In (Py.PDict rec) blds ->
         In k ["id"; "building_type"] ->
         Py.lookup rec k = None ->
         exists e, build_solution_from_data (Py.PDict d) = Py.Raise e).
Proof.
  split; [|split].
  - intros d locs sol Hlocs H. rewrite build_solution_from_data_dict in H.
    unfold field in H at 1. rewrite Hlocs in H. cbn [Py.iter Py.bind] in H.
    bind_steps H. injection H as <-. cbn [CityPlanSolution.location_list].
    match goal with
    | E : Py.comprehension _ locs = Py.Ok _ |- _ => apply comprehension_Ok in E; revert E
    end.
    apply Forall2_impl. intros rec l Hrec. split; [exact Hrec|].
    intros fields ->. now apply build_location_defaults.
  - intros d locs rec k Hlocs Hin Hk Hnone. rewrite build_solution_from_data_dict.
    unfold field at 1. rewrite Hlocs. cbn [Py.iter Py.bind].
    destruct (build_location_missing_key rec k Hk Hnone) as [e He].
    destruct (comprehension_Raise _ _ _ _ _ e Hin He) as [e' He'].
    rewrite He'. eexists. reflexivity.
  - intros d blds rec k Hblds Hin Hk Hnone. rewrite build_solution_from_data_dict.
    destruct (Py.iter (field d "locations" (Py.PList []))) as [locs|err];
      cbn [Py.bind]; [|eexists; reflexivity].
    destruct (Py.comprehension build_location locs) as [ll|err];
      cbn [Py.bind]; [|eexists; reflexivity].
    unfold field at 1. rewrite Hblds. cbn [Py.iter Py.bind].
    destruct (build_placement_missing_key rec k Hk Hnone) as [e He].
    destruct (comprehension_Raise _ _ _ _ _ e Hin He) as [e' He'].
    rewrite He'. eexists. reflexivity.
Qed.

(** C10. Every solution that [build_solution_from_data] returns, and every
    solution that the two [load_solution_from_json] return, has all its
    placements unassigned and no score, whatever the input holds. *)
Theorem built_solutions_start_unassigned :
  (forall data sol,
      build_solution_from_data data = Py.Ok sol ->
      Forall (fun bp => BuildingPlacement.location bp = None)
        (CityPlanSolution.building_placement_list sol)
      /\ CityPlanSolution.score sol = None)
  /\ (forall json_load path sol,
         App.load_solution_from_json Score int_of_str float_of_str json_load path
         = Py.Ok sol ->
         Forall (fun bp => BuildingPlacement.location bp = None)
           (CityPlanSolution.building_placement_list sol)
         /\ CityPlanSolution.score sol = None)
  /\ (forall json_load path sol,
         Benchmark.load_solution_from_json Score int_of_str float_of_str json_load path
         = Py.Ok sol ->
         Forall (fun bp => BuildingPlacement.location bp = None)
           (CityPlanSolution.building_placement_list sol)
         /\ CityPlanSolution.score sol = None).
Proof.
  assert (Hbuild :
    forall data sol,
      build_solution_from_data data = Py.Ok sol ->
      Forall (fun bp => BuildingPlacement.location bp = None)
        (CityPlanSolution.building_placement_list sol)
      /\ CityPlanSolution.score sol = None).
  { intros data sol H. destruct data; try discriminate.
    rewrite build_solution_from_data_dict in H. bind_steps H. injection H as <-.
    cbn [CityPlanSolution.building_placement_list CityPlanSolution.score].
    split; [|reflexivity].
    match goal with
    | E : Py.comprehension _ _ = Py.Ok _ |- _ =>
        apply comprehension_unassigned in E; apply E
    end. }
  split; [exact Hbuild|split].
  - intros json_load path sol H. unfold App.load_solution_from_json in H.
    apply bind_Ok in H. destruct H as [data [_ H]]. now apply (Hbuild data).
  - intros json_load path sol H.
    destruct (json_load path) as [data|err] eqn:Hload;
      [|unfold Benchmark.load_solution_from_json in H; rewrite Hload in H; discriminate].
    destruct data;
      try (unfold Benchmark.load_solution_from_json in H; rewrite Hload in H;
           discriminate).
    rewrite (benchmark_loader_as_builder _ _ _ _ _ d Hload) in H.
    bind_steps H. injection H as <-.
    cbn [CityPlanSolution.building_placement_list CityPlanSolution.score].
    split; [|reflexivity].
    match goal with
    | E : Py.comprehension _ _ = Py.Ok _ |- _ =>
        apply comprehension_unassigned in E; apply E
    end.
Qed.

End BuilderClaims.

(** ** The theorems at work on the samples *)

Lemma Location_eqb_neq_id :
  forall a b, Location.id a <> Location.id b -> Location.eqb a b = false.
Proof.
  intros a b H. unfold Location.eqb.
  destruct (Location.eq_dec a b) as [->|]; [contradiction | reflexivity].
Qed.

Ltac eval_location_tests :=
  repeat match goal with
         | |- context [Location.eqb ?a ?a] => rewrite (Location_eqb_refl a)
         | |- context [Location.eqb ?a ?b] =>
             rewrite (Location_eqb_neq_id a b) by (cbn; discriminate)
         end.

Lemma demo_locations_distinct :
  NoDup [Solve.loc1; Solve.loc3; Solve.loc2].
Proof.
  repeat (constructor;
          [cbn; intros H;
           repeat (destruct H as [H|H];
                   [apply (f_equal Location.id) in H; discriminate|]);
           exact H|]).
  constructor.
Qed.

(** The spread sample has no uniqueness violation; the colliding sample has
    exactly one. *)
Lemma location_uniqueness_penalty_witness :
  (exists bd,
      App.get_score_breakdown demo_spread = Py.Ok bd
      /\ Spec.entry_named "Location uniqueness (HARD)" bd
         = Some (App.Entry "Location uniqueness (HARD)" 0 0))
  /\ (exists bd,
         App.get_score_breakdown demo_collision = Py.Ok bd
         /\ Spec.entry_named "Location uniqueness (HARD)" bd
            = Some (App.Entry "Location uniqueness (HARD)" (-1) 0)).
Proof.
  split.
  - apply (proj1 (proj2 (proj2 (location_uniqueness_penalty unit demo_spread)))).
    exact demo_locations_distinct.
  - destruct (proj1 (location_uniqueness_penalty unit demo_collision)) as [bd [Hbd He]].
    exists bd. split; [exact Hbd|]. rewrite He.
    cbn [demo_collision demo_assignment CityPlanSolution.building_placement_list
           unordered_pairs map app filter Spec.shares_location fst snd
           BuildingPlacement.location].
    eval_location_tests. reflexivity.
Defined.

Lemma build_solution_from_data_fields_witness :
  Forall2
    (fun rec l =>
       App.build_location no_int_of_str no_float_of_str rec = Py.Ok l
       /\ forall fields, rec = Py.PDict fields ->
            (Py.lookup fields "cost_factor" = None -> Location.cost_factor l = 1%R)
            /\ (Py.lookup fields "allowed_building_types" = None ->
                Location.allowed_building_types l = []))
    [Py.PDict sample_location_record]
    (CityPlanSolution.location_list sample_solution).
Proof.
  apply (proj1 (build_solution_from_data_fields unit no_int_of_str no_float_of_str)
           sample_fields [Py.PDict sample_location_record] sample_solution
           eq_refl sample_request_builds).
Defined.

Lemma built_solutions_start_unassigned_witness :
  Forall (fun bp => BuildingPlacement.location bp = None)
    (CityPlanSolution.building_placement_list sample_solution)
  /\ CityPlanSolution.score sample_solution = None.
Proof.
  apply (proj1 (built_solutions_start_unassigned unit no_int_of_str no_float_of_str)
           sample_request sample_solution sample_request_builds).
Defined.

(** ** Where the API layer and the constraints part *)

Lemma sqrt_50_bounds : (7 < sqrt 50 < 8)%R.
Proof.
  split.
  - replace 7%R with (sqrt (7 * 7)) by (apply sqrt_square; lra).
    apply sqrt_lt_1; lra.
  - replace 8%R with (sqrt (8 * 8)) by (apply sqrt_square; lra).
    apply sqrt_lt_1; lra.
Qed.

Lemma trunc_sqrt_50 : Py.trunc (sqrt 50) = 7%Z.
Proof.
  pose proof sqrt_50_bounds as [Hlo Hhi].
  unfold Py.trunc. destruct (Rle_dec 0 (sqrt 50)) as [_|Hneg]; [|lra].
  symmetry. apply Int_part_spec. split; lra.
Qed.

Lemma demo_house_school_distance :
  Constraints.dist (Location.x Solve.loc1, Location.y Solve.loc1)
                   (Location.x Solve.loc3, Location.y Solve.loc3)
  = sqrt 50.
Proof.
  unfold Constraints.dist. cbn [fst snd Location.x Location.y Solve.loc1 Solve.loc3].
  f_equal. lra.
Qed.

(** C2, evaluated.  The two layers part in two ways.  With the house of the
    demo data set on loc1 and the school on loc3, the API layer reports the
    soft penalty [- sqrt 50] (about -7.07) for the HOUSE-SCHOOL distance, where
    the constraint of constraints.py, whose match weights are integers, adds
    -7.  With two placements of the same id on one location, the API layer
    counts one uniqueness violation, where the constraint, whose unique pairs
    go by planning id, counts none. *)
Theorem breakdown_parts_from_constraints :
  (exists bd,
      App.get_score_breakdown demo_house_school = Py.Ok bd
      /\ Spec.entry_named "Distance between HOUSE and SCHOOL (SOFT)" bd
         = Some (App.Entry "Distance between HOUSE and SCHOOL (SOFT)" 0 (- sqrt 50)))
  /\ (7 < sqrt 50 < 8)%R
  /\ Constraints.impact
       (Constraints.build_house_school_distance_constraint
          (CityPlanSolution.building_placement_list demo_house_school))
     = Py.Ok (0, -7)%Z
  /\ (exists bd,
         App.get_score_breakdown twins = Py.Ok bd
         /\ Spec.entry_named "Location uniqueness (HARD)" bd
            = Some (App.Entry "Location uniqueness (HARD)" (-1) 0))
  /\ Constraints.impact
       (Constraints.build_location_uniqueness_constraint
          (CityPlanSolution.building_placement_list twins))
     = Py.Ok (0, 0)%Z.
Proof.
  split; [|split; [exact sqrt_50_bounds|split; [|split]]].
  - exists (breakdown_value (CityPlanSolution.building_placement_list demo_house_school)).
    split; [apply get_score_breakdown_value|].
    unfold Spec.entry_named, breakdown_value. cbn [find App.constraintName].
    eval_string_tests. do 2 f_equal.
    cbn [demo_house_school demo_assignment CityPlanSolution.building_placement_list
           pair_sum map msum fold_right].
    unfold when, App.both_assigned, App.house_school_test, distance.
    cbn [BuildingPlacement.location BuildingPlacement.building_type Py.truthy
           BuildingType.eqb andb orb].
    rewrite demo_house_school_distance. lra.
  - unfold Constraints.build_house_school_distance_constraint.
    cbn [Constraints.impact].
    cbn [demo_house_school demo_assignment CityPlanSolution.building_placement_list].
    unfold Constraints.for_each_unique_pair.
    cbn [flat_map app BuildingPlacement.id Z.ltb Z.compare Pos.compare Pos.compare_cont
           filter Constraints.house_school_filter BuildingPlacement.location
           BuildingPlacement.building_type BuildingType.eqb is_not_None andb orb].
    unfold Constraints.penalize_ONE_SOFT.
    cbn [Py.for_loop Py.bind fst snd Constraints.calc_distance
           BuildingPlacement.location].
    rewrite demo_house_school_distance, trunc_sqrt_50. reflexivity.
  - exists (breakdown_value (CityPlanSolution.building_placement_list twins)).
    split; [apply get_score_breakdown_value|].
    unfold Spec.entry_named, breakdown_value. cbn [find App.constraintName].
    eval_string_tests. rewrite uniqueness_sum_count.
    cbn [twins CityPlanSolution.building_placement_list unordered_pairs map app filter
           Spec.shares_location fst snd BuildingPlacement.location].
    eval_location_tests. reflexivity.
  - unfold Constraints.build_location_uniqueness_constraint.
    cbn [Constraints.impact twins CityPlanSolution.building_placement_list].
    reflexivity.
Qed.

(** * Further properties of the code *)

(** ** Sums under reordering *)

Section SumsAndOrder.

Variable M : Type.
Variable op : M -> M -> M.
Variable e : M.
Hypothesis laws : commutative_monoid op e.

Local Abbreviation sumM := (msum op e).
Local Abbreviation pair_sumM := (pair_sum op e).

Lemma msum_perm :
  forall l1 l2 : list M, Permutation l1 l2 -> sumM l1 = sumM l2.
Proof.
  intros l1 l2 H. induction H as [|x l1 l2 _ IH|x y l|l1 l2 l3 _ IH1 _ IH2].
  - reflexivity.
  - rewrite !msum_cons. now rewrite IH.
  - rewrite !msum_cons. rewrite !(op_assoc M op e laws).
    f_equal. apply (op_comm M op e laws).
  - now rewrite IH1.
Qed.

Lemma msum_map_perm :
  forall (A : Type) (f : A -> M) (l1 l2 : list A),
    Permutation l1 l2 -> sumM (map f l1) = sumM (map f l2).
Proof. intros A f l1 l2 H. apply msum_perm. now apply Permutation_map. Qed.

(** A sum over unordered pairs does not depend on the order of the list when
    the summand does not depend on the order inside a pair. *)
Lemma pair_sum_perm :
  forall (A : Type) (v : A -> A -> M),
    (forall a b, v a b = v b a) ->
    forall l1 l2 : list A, Permutation l1 l2 -> pair_sumM v l1 = pair_sumM v l2.
Proof.
  intros A v Hsym l1 l2 H.
  induction H as [|x l1 l2 Hp IH|x y l|l1 l2 l3 _ IH1 _ IH2].
  - reflexivity.
  - cbn [pair_sum]. rewrite IH. f_equal. now apply msum_map_perm.
  - cbn [pair_sum map]. rewrite !msum_cons. rewrite (Hsym y x).
    rewrite <- !(op_assoc M op e laws). f_equal.
    rewrite !(op_assoc M op e laws). f_equal. apply (op_comm M op e laws).
  - now rewrite IH1.
Qed.

End SumsAndOrder.

(** ** The breakdown under reordering and growth of the placement list *)

Lemma uniqueness_test_sym :
  forall a b, App.uniqueness_test a b = App.uniqueness_test b a.
Proof.
  intros a b. unfold App.uniqueness_test.
  destruct (BuildingPlacement.location a) as [la|],
           (BuildingPlacement.location b) as [lb|]; simpl; try reflexivity.
  apply Location_eqb_sym.
Qed.

Lemma house_school_pair_sym :
  forall a b,
    App.both_assigned a b && App.house_school_test a b
    = App.both_assigned b a && App.house_school_test b a.
Proof.
  intros a b. unfold App.both_assigned, App.house_school_test.
  destruct (BuildingPlacement.building_type a), (BuildingPlacement.building_type b),
           (BuildingPlacement.location a), (BuildingPlacement.location b); reflexivity.
Qed.

Lemma house_office_pair_sym :
  forall a b,
    App.both_assigned a b && App.house_office_test a b
    = App.both_assigned b a && App.house_office_test b a.
Proof.
  intros a b. unfold App.both_assigned, App.house_office_test.
  destruct (BuildingPlacement.building_type a), (BuildingPlacement.building_type b),
           (BuildingPlacement.location a), (BuildingPlacement.location b); reflexivity.
Qed.

Lemma breakdown_value_perm :
  forall ps1 ps2, Permutation ps1 ps2 -> breakdown_value ps1 = breakdown_value ps2.
Proof.
  intros ps1 ps2 H. unfold breakdown_value.
  rewrite (over_Z msum_map_perm _ (fun bp => when 0%Z (App.disallowed_test bp) 1%Z) _ _ H).
  rewrite (over_Z msum_map_perm _ (fun bp => when 0%Z (App.zoning_test bp) 1%Z) _ _ H).
  rewrite (over_Z pair_sum_perm _ (fun a b => when 0%Z (App.uniqueness_test a b) 1%Z))
    with (l2 := ps2)
    by (try assumption; intros a b; now rewrite uniqueness_test_sym).
  rewrite (over_R pair_sum_perm _
             (fun a b => when 0%R (App.both_assigned a b && App.house_school_test a b)
                           (distance a b)))
    with (l2 := ps2)
    by (try assumption; intros a b; now rewrite house_school_pair_sym, distance_sym).
  rewrite (over_R pair_sum_perm _
             (fun a b => when 0%R (App.both_assigned a b && App.house_office_test a b)
                           (distance a b)))
    with (l2 := ps2)
    by (try assumption; intros a b; now rewrite house_office_pair_sym, distance_sym).
  rewrite (over_R msum_map_perm _ cost _ _ H).
  reflexivity.
Qed.

(** X1. The hard penalties do not depend on the order in which the solution
    lists its placements: under a permutation of the list, each of the six
    entries keeps its name and its hard penalty. *)
Theorem hard_penalties_order_independent :
  forall (Score : Type) (s1 s2 : CityPlanSolution.t Score),
    Permutation (CityPlanSolution.building_placement_list s1)
                (CityPlanSolution.building_placement_list s2) ->
    exists bd1 bd2,
      App.get_score_breakdown s1 = Py.Ok bd1
      /\ App.get_score_breakdown s2 = Py.Ok bd2
      /\ map hard_part bd1 = map hard_part bd2.
Proof.
  intros Score s1 s2 H.
  exists (breakdown_value (CityPlanSolution.building_placement_list s1)),
         (breakdown_value (CityPlanSolution.building_placement_list s2)).
  split; [apply get_score_breakdown_value|].
  split; [apply get_score_breakdown_value|].
  unfold breakdown_value, hard_part.
  cbn [map App.constraintName App.hardPenalty].
  rewrite (over_Z msum_map_perm _ (fun bp => when 0%Z (App.disallowed_test bp) 1%Z) _ _ H).
  rewrite (over_Z msum_map_perm _ (fun bp => when 0%Z (App.zoning_test bp) 1%Z) _ _ H).
  rewrite (over_Z pair_sum_perm _ (fun a b => when 0%Z (App.uniqueness_test a b) 1%Z))
    with (l2 := CityPlanSolution.building_placement_list s2)
    by (try assumption; intros a b; now rewrite uniqueness_test_sym).
  reflexivity.
Qed.

Lemma hard_penalties_order_independent_witness :
  exists bd1 bd2,
    App.get_score_breakdown demo_collision = Py.Ok bd1
    /\ App.get_score_breakdown demo_collision_reordered = Py.Ok bd2
    /\ map hard_part bd1 = map hard_part bd2.
Proof.
  apply (hard_penalties_order_independent unit demo_collision demo_collision_reordered).
  cbn [demo_collision demo_collision_reordered demo_assignment with_placements
         CityPlanSolution.building_placement_list].
  apply Permutation_sym.
  apply (Permutation_cons_app
           [BuildingPlacement.Build 101 BuildingType.HOUSE (Some Solve.loc1);
            BuildingPlacement.Build 102 BuildingType.SCHOOL (Some Solve.loc1)]
           [BuildingPlacement.Build 104 BuildingType.SHOP None]).
  cbn [app]. apply perm_skip. apply perm_swap.
Defined.

Lemma breakdown_value_cons :
  forall bp ps,
    breakdown_value (bp :: ps)
    = [ App.Entry "Building in disallowed location (HARD)"
          (- (when 0 (App.disallowed_test bp) 1
              + msum Z.add 0 (map (fun bp => when 0 (App.disallowed_test bp) 1) ps)))%Z 0%R;
        App.Entry "Zoning mismatch (HARD)"
          (- (when 0 (App.zoning_test bp) 1
              + msum Z.add 0 (map (fun bp => when 0 (App.zoning_test bp) 1) ps)))%Z 0%R;
        App.Entry "Location uniqueness (HARD)"
          (- (msum Z.add 0 (map (fun b => when 0 (App.uniqueness_test bp b) 1) ps)
              + pair_sum Z.add 0 (fun a b => when 0 (App.uniqueness_test a b) 1) ps))%Z
          0%R;
        App.Entry "Distance between HOUSE and SCHOOL (SOFT)" 0%Z
          (- (msum Rplus 0
                (map (fun b =>
                        when 0 (App.both_assigned bp b && App.house_school_test bp b)
                          (distance bp b)) ps)
              + pair_sum Rplus 0
                  (fun a b =>
                     when 0 (App.both_assigned a b && App.house_school_test a b)
                       (distance a b)) ps))%R;
        App.Entry "Distance between HOUSE and OFFICE (SOFT)" 0%Z
          (- (msum Rplus 0
                (map (fun b =>
                        when 0 (App.both_assigned bp b && App.house_office_test bp b)
                          (distance bp b)) ps)
              + pair_sum Rplus 0
                  (fun a b =>
                     when 0 (App.both_assigned a b && App.house_office_test a b)
                       (distance a b)) ps))%R;
        App.Entry "Building cost minimization (SOFT)" 0%Z
          (- (cost bp + msum Rplus 0 (map cost ps)))%R ].
Proof. reflexivity. Qed.

(** X2. Inserting a placement anywhere in the list never raises a penalty:
    every entry of the new breakdown has the same name and penalties that are
    not higher, provided the new placement's location, if it has one, has a
    non-negative cost factor. *)
Theorem adding_a_placement_never_raises_a_penalty :
  forall (Score : Type) (solution : CityPlanSolution.t Score)
         (ps1 ps2 : list BuildingPlacement.t) (bp : BuildingPlacement.t),
    (forall l, BuildingPlacement.location bp = Some l -> (0 <= Location.cost_factor l)%R) ->
    exists bd bd',
      App.get_score_breakdown (with_placements solution (ps1 ++ ps2)) = Py.Ok bd
      /\ App.get_score_breakdown (with_placements solution (ps1 ++ bp :: ps2)) = Py.Ok bd'
      /\ Forall2 no_better bd bd'.
Proof.
  intros Score solution ps1 ps2 bp Hcost.
  exists (breakdown_value (ps1 ++ ps2)), (breakdown_value (bp :: ps1 ++ ps2)).
  split; [apply get_score_breakdown_value|]. split.
  - rewrite get_score_breakdown_value. f_equal.
    cbn [with_placements CityPlanSolution.building_placement_list].
    apply breakdown_value_perm. apply Permutation_sym, Permutation_middle.
  - rewrite breakdown_value_cons. unfold breakdown_value.
    set (ps := ps1 ++ ps2).
    pose proof (when_one_nonneg (App.disallowed_test bp)) as H1.
    pose proof (when_one_nonneg (App.zoning_test bp)) as H2.
    pose proof (Zsum_nonneg _ (fun b => when 0%Z (App.uniqueness_test bp b) 1%Z) ps
                  (fun a _ => when_one_nonneg _)) as H3.
    pose proof (Rsum_nonneg _
                  (fun b => when 0%R (App.both_assigned bp b && App.house_school_test bp b)
                              (distance bp b)) ps
                  (fun b _ => when_distance_nonneg _ bp b)) as H4.
    pose proof (Rsum_nonneg _
                  (fun b => when 0%R (App.both_assigned bp b && App.house_office_test bp b)
                              (distance bp b)) ps
                  (fun b _ => when_distance_nonneg _ bp b)) as H5.
    assert (H6 : (0 <= cost bp)%R).
    { unfold cost. destruct (BuildingPlacement.location bp) as [l|]; [now apply Hcost | lra]. }
    repeat (apply Forall2_cons;
            [unfold no_better;
             cbn [App.constraintName App.hardPenalty App.softPenalty];
             split; [reflexivity | split; [lia | lra]]|]).
    apply Forall2_nil.
Qed.

Lemma adding_a_placement_never_raises_a_penalty_witness :
  exists bd bd',
    App.get_score_breakdown (with_placements demo_spread (demo_others None None None))
    = Py.Ok bd
    /\ App.get_score_breakdown
         (with_placements demo_spread
            (BuildingPlacement.Build 101 BuildingType.HOUSE (Some Solve.loc4)
             :: demo_others None None None)) = Py.Ok bd'
    /\ Forall2 no_better bd bd'.
Proof.
  apply (adding_a_placement_never_raises_a_penalty unit demo_spread []
           (demo_others None None None)
           (BuildingPlacement.Build 101 BuildingType.HOUSE (Some Solve.loc4))).
  intros l H. injection H as <-. cbn. lra.
Defined.

(** ** Bounds on the hard penalties, and when they vanish *)

Lemma allowed_in_zone_In :
  forall b z,
    Constraints.is_building_type_allowed_in_zone b z = true
    <-> In z (Spec.permitted_zones b).
Proof.
  intros b z. destruct b, z; simpl; split; intro H;
    try reflexivity; try discriminate;
    try (repeat (destruct H as [H|H]; try discriminate); contradiction);
    auto 10.
Qed.

Lemma filter_nil_iff :
  forall (A : Type) (c : A -> bool) (l : list A),
    filter c l = [] <-> forall a, In a l -> c a = false.
Proof.
  intros A c l. induction l as [|a l IH]; simpl.
  - split; [intros _ x [] | reflexivity].
  - destruct (c a) eqn:E; split.
    + discriminate.
    + intro H. specialize (H a (or_introl eq_refl)). congruence.
    + intros H x [<-|Hx]; [assumption | now apply IH].
    + intro H. apply IH. intros x Hx. apply H. now right.
Qed.

Lemma count_zero_iff :
  forall (A : Type) (c : A -> bool) (l : list A),
    (- msum Z.add 0 (map (fun a => when 0 (c a) 1) l) = 0)%Z
    <-> forall a, In a l -> c a = false.
Proof.
  intros A c l. rewrite sum_count, <- filter_nil_iff, <- length_zero_iff_nil. lia.
Qed.

Lemma length_unordered_pairs_twice :
  forall (A : Type) (l : list A),
    2 * List.length (unordered_pairs l) = List.length l * (List.length l - 1).
Proof.
  intros A l. induction l as [|a l IH]; [reflexivity|].
  cbn [unordered_pairs List.length]. rewrite length_app, length_map. nia.
Qed.

Lemma in_assigned_locations :
  forall la l,
    In la (Spec.assigned_locations l)
    <-> exists b, In b l /\ BuildingPlacement.location b = Some la.
Proof.
  intros la l. unfold Spec.assigned_locations. rewrite in_flat_map. split.
  - intros [b [Hb Hin]]. exists b. split; [assumption|].
    destruct (BuildingPlacement.location b) as [lb|]; [|contradiction].
    destruct Hin as [->|[]]. reflexivity.
  - intros [b [Hb Hloc]]. exists b. split; [assumption|]. rewrite Hloc. now left.
Qed.

Lemma no_violation_distinct_locations :
  forall ps,
    filter Spec.shares_location (unordered_pairs ps) = [] ->
    NoDup (Spec.assigned_locations ps).
Proof.
  induction ps as [|a ps IH]; intro H; [constructor|].
  cbn [unordered_pairs] in H. rewrite filter_app in H.
  apply app_eq_nil in H. destruct H as [Ha Hps].
  unfold Spec.assigned_locations. cbn [flat_map].
  fold (Spec.assigned_locations ps).
  destruct (BuildingPlacement.location a) as [la|] eqn:Ea; [|now apply IH].
  cbn [app]. constructor; [|now apply IH].
  intro Hin. apply in_assigned_locations in Hin. destruct Hin as [b [Hb Hloc]].
  assert (Hab : In (a, b) (filter Spec.shares_location (map (pair a) ps))).
  { apply filter_In. split; [now apply in_map|].
    unfold Spec.shares_location. cbn [fst snd]. rewrite Ea, Hloc.
    apply Location_eqb_refl. }
  rewrite Ha in Hab. contradiction.
Qed.

Lemma uniqueness_zero_iff :
  forall ps,
    (- pair_sum Z.add 0 (fun a b => when 0 (App.uniqueness_test a b) 1) ps = 0)%Z
    <-> NoDup (Spec.assigned_locations ps).
Proof.
  intro ps. rewrite uniqueness_sum_count. split.
  - intro H. apply no_violation_distinct_locations. apply length_zero_iff_nil. lia.
  - intro H. now rewrite distinct_locations_no_violation.
Qed.

Lemma disallowed_test_false_iff :
  forall bp,
    App.disallowed_test bp = false
    <-> forall l, BuildingPlacement.location bp = Some l ->
                  In (BuildingPlacement.building_type bp) (Location.allowed_building_types l).
Proof.
  intro bp. unfold App.disallowed_test.
  destruct (BuildingPlacement.location bp) as [l|].
  - rewrite Bool.negb_false_iff, (contains_In _ _ BuildingType_eqb_eq). split.
    + intros H l' Hl'. now injection Hl' as <-.
    + intro H. now apply H.
  - split; [intros _ l Hl; discriminate | reflexivity].
Qed.

Lemma zoning_test_false_iff :
  forall bp,
    App.zoning_test bp = false
    <-> forall l, BuildingPlacement.location bp = Some l ->
                  In (Location.zone l)
                     (Spec.permitted_zones (BuildingPlacement.building_type bp)).
Proof.
  intro bp. unfold App.zoning_test.
  destruct (BuildingPlacement.location bp) as [l|].
  - rewrite Bool.negb_false_iff, allowed_in_zone_In. split.
    + intros H l' Hl'. now injection Hl' as <-.
    + intro H. now apply H.
  - split; [intros _ l Hl; discriminate | reflexivity].
Qed.

(** X3. The three hard penalties vanish exactly when the assignment is
    feasible: the disallowed-location penalty is 0 iff every assigned
    placement's type is in its location's list of allowed types, the zoning
    penalty is 0 iff every assigned placement's zone is permitted for its type
    by the zone table, and the uniqueness penalty is 0 iff the locations of
    the assigned placements are pairwise distinct. *)
Theorem hard_penalties_vanish_iff_feasible :
  forall (Score : Type) (solution : CityPlanSolution.t Score),
    let ps := CityPlanSolution.building_placement_list solution in
    exists (h1 h2 h3 : Z) (s4 s5 s6 : R),
      App.get_score_breakdown solution
      = Py.Ok [ App.Entry "Building in disallowed location (HARD)" h1 0;
                App.Entry "Zoning mismatch (HARD)" h2 0;
                App.Entry "Location uniqueness (HARD)" h3 0;
                App.Entry "Distance between HOUSE and SCHOOL (SOFT)" 0 s4;
                App.Entry "Distance between HOUSE and OFFICE (SOFT)" 0 s5;
                App.Entry "Building cost minimization (SOFT)" 0 s6 ]
      /\ (h1 = 0%Z
          <-> forall bp l,
                In bp ps -> BuildingPlacement.location bp = Some l ->
                In (BuildingPlacement.building_type bp)
                   (Location.allowed_building_types l))
      /\ (h2 = 0%Z
          <-> forall bp l,
                In bp ps -> BuildingPlacement.location bp = Some l ->
                In (Location.zone l)
                   (Spec.permitted_zones (BuildingPlacement.building_type bp)))
      /\ (h3 = 0%Z <-> NoDup (Spec.assigned_locations ps)).
Proof.
  intros Score solution ps. rewrite get_score_breakdown_value. fold ps.
  unfold breakdown_value. do 6 eexists. split; [reflexivity|].
  split; [|split].
  - rewrite count_zero_iff. split.
    + intros H bp l Hbp. now apply disallowed_test_false_iff, H.
    + intros H bp Hbp. apply disallowed_test_false_iff. intros l Hl. now apply (H bp l).
  - rewrite count_zero_iff. split.
    + intros H bp l Hbp. now apply zoning_test_false_iff, H.
    + intros H bp Hbp. apply zoning_test_false_iff. intros l Hl. now apply (H bp l).
  - apply uniqueness_zero_iff.
Qed.

Lemma count_bounds :
  forall (A : Type) (c : A -> bool) (l : list A),
    (- Z.of_nat (List.length l)
     <= - msum Z.add 0 (map (fun a => when 0 (c a) 1) l) <= 0)%Z.
Proof.
  intros A c l. rewrite sum_count.
  pose proof (filter_length_le c l). lia.
Qed.

(** X4. With [n] assigned placements, the disallowed-location penalty and the
    zoning penalty lie between [-n] and 0, and the uniqueness penalty between
    [-n * (n - 1) / 2] and 0. *)
Theorem hard_penalty_bounds :
  forall (Score : Type) (solution : CityPlanSolution.t Score),
    let n :=
      Z.of_nat
        (List.length (filter assigned (CityPlanSolution.building_placement_list solution)))
    in
    exists (h1 h2 h3 : Z) (s4 s5 s6 : R),
      App.get_score_breakdown solution
      = Py.Ok [ App.Entry "Building in disallowed location (HARD)" h1 0;
                App.Entry "Zoning mismatch (HARD)" h2 0;
                App.Entry "Location uniqueness (HARD)" h3 0;
                App.Entry "Distance between HOUSE and SCHOOL (SOFT)" 0 s4;
                App.Entry "Distance between HOUSE and OFFICE (SOFT)" 0 s5;
                App.Entry "Building cost minimization (SOFT)" 0 s6 ]
      /\ (- n <= h1 <= 0)%Z
      /\ (- n <= h2 <= 0)%Z
      /\ (- (n * (n - 1) / 2) <= h3 <= 0)%Z.
Proof.
  intros Score solution n. rewrite get_score_breakdown_value.
  rewrite <- breakdown_value_skip.
  set (ps := filter assigned (CityPlanSolution.building_placement_list solution)) in *.
  unfold breakdown_value. do 6 eexists. split; [reflexivity|].
  split; [apply count_bounds | split; [apply count_bounds|]].
  rewrite uniqueness_sum_count.
  pose proof (filter_length_le Spec.shares_location (unordered_pairs ps)) as Hle.
  pose proof (length_unordered_pairs_twice _ ps) as Htwice.
  assert (Hn : (2 * Z.of_nat (List.length (unordered_pairs ps)) = n * (n - 1))%Z).
  { unfold n. destruct (List.length ps) as [|m] eqn:Em.
    - destruct ps; [reflexivity | discriminate].
    - rewrite Nat.sub_succ, Nat.sub_0_r in Htwice. nia. }
  assert (Hdiv : (n * (n - 1) / 2 = Z.of_nat (List.length (unordered_pairs ps)))%Z).
  { rewrite <- Hn. rewrite Z.mul_comm. apply Z.div_mul. discriminate. }
  rewrite Hdiv. lia.
Qed.

(** ** Unassigned solutions, and the demo data set *)

Lemma breakdown_value_nil : breakdown_value [] = zero_breakdown.
Proof.
  unfold breakdown_value, zero_breakdown. cbn [map msum fold_right pair_sum Z.opp].
  now rewrite Ropp_0.
Qed.

Lemma filter_assigned_unassigned :
  forall ps,
    Forall (fun bp => BuildingPlacement.location bp = None) ps ->
    filter assigned ps = [].
Proof.
  intros ps H. apply filter_nil_iff. rewrite Forall_forall in H.
  intros bp Hbp. unfold assigned. now rewrite (H bp Hbp).
Qed.

Lemma unassigned_breakdown_value :
  forall ps,
    Forall (fun bp => BuildingPlacement.location bp = None) ps ->
    breakdown_value ps = zero_breakdown.
Proof.
  intros ps H. rewrite <- breakdown_value_skip.
  now rewrite filter_assigned_unassigned, breakdown_value_nil.
Qed.

(** X5. The breakdown of a solution that [build_solution_from_data] has just
    built is the one in which all six penalties are zero, however many
    locations and buildings the request holds. *)
Theorem built_solution_breakdown_is_zero :
  forall (Score : Type) (int_of_str : string -> option Z)
         (float_of_str : string -> option R) (data : Py.pyval)
         (sol : CityPlanSolution.t Score),
    App.build_solution_from_data Score int_of_str float_of_str data = Py.Ok sol ->
    App.get_score_breakdown sol = Py.Ok zero_breakdown.
Proof.
  intros Score int_of_str float_of_str data sol H.
  rewrite get_score_breakdown_value. f_equal. apply unassigned_breakdown_value.
  destruct data; try discriminate.
  rewrite build_solution_from_data_dict in H. bind_steps H. injection H as <-.
  cbn [CityPlanSolution.building_placement_list].
  match goal with
  | E : Py.comprehension _ _ = Py.Ok _ |- _ =>
      apply comprehension_unassigned in E; apply E
  end.
Qed.

Lemma built_solution_breakdown_is_zero_witness :
  App.get_score_breakdown sample_solution = Py.Ok zero_breakdown.
Proof.
  apply (built_solution_breakdown_is_zero unit no_int_of_str no_float_of_str
           sample_request sample_solution sample_request_builds).
Defined.

Lemma hard_total_value :
  forall ps,
    hard_total (breakdown_value ps)
    = (- Z.of_nat (List.length (filter App.disallowed_test ps))
       - Z.of_nat (List.length (filter App.zoning_test ps))
       - Z.of_nat (List.length (filter Spec.shares_location (unordered_pairs ps))))%Z.
Proof.
  intro ps. unfold hard_total, breakdown_value.
  cbn [map msum fold_right App.hardPenalty].
  rewrite !sum_count, uniqueness_sum_count. lia.
Qed.

Lemma demo_location_usable :
  forall (b : BuildingType.t) (o : Location.t),
    In o [Solve.loc1; Solve.loc2; Solve.loc3; Solve.loc4] ->
    In b (Location.allowed_building_types o) ->
    In o [Solve.loc1; Solve.loc2; Solve.loc3].
Proof.
  intros b o Ho Hb. cbn [In] in Ho.
  destruct Ho as [<-|[<-|[<-|[<-|[]]]]]; cbn [In]; auto.
Qed.

(** X6. The demo data set of [create_initial_solution] has no feasible complete
    assignment: whichever of the four locations each of the four placements
    is put on, the hard penalties sum to -1 or less; and -1 is reached, by the
    house on loc1, the school on loc3 and both office and shop on loc2. *)
Theorem demo_has_no_feasible_assignment :
  (forall o1 o2 o3 o4 : Location.t,
      incl [o1; o2; o3; o4]
           (CityPlanSolution.location_list (@Solve.create_initial_solution unit)) ->
      exists bd,
        App.get_score_breakdown (demo_assignment (Some o1) (Some o2) (Some o3) (Some o4))
        = Py.Ok bd
        /\ (hard_total bd <= -1)%Z)
  /\ (exists bd,
         App.get_score_breakdown demo_best_effort = Py.Ok bd
         /\ hard_total bd = (-1)%Z).
Proof.
  split.
  - intros o1 o2 o3 o4 Hincl.
    set (sol := demo_assignment (Some o1) (Some o2) (Some o3) (Some o4)).
    set (ps := CityPlanSolution.building_placement_list sol).
    exists (breakdown_value ps). split; [apply get_score_breakdown_value|].
    rewrite hard_total_value.
    destruct (filter App.disallowed_test ps) as [|x xs] eqn:Hd;
      [|cbn [List.length]; lia].
    destruct (filter Spec.shares_location (unordered_pairs ps)) as [|y ys] eqn:Hu;
      [|cbn [List.length]; lia].
    exfalso.
    apply no_violation_distinct_locations in Hu.
    assert (Hall : forall bp l,
               In bp ps -> BuildingPlacement.location bp = Some l ->
               In (BuildingPlacement.building_type bp)
                  (Location.allowed_building_types l)).
    { intros bp l Hbp Hl. apply (proj1 (disallowed_test_false_iff bp)); [|exact Hl].
      now apply (proj1 (filter_nil_iff _ _ _) Hd). }
    assert (Hin3 : incl [o1; o2; o3; o4] [Solve.loc1; Solve.loc2; Solve.loc3]).
    { intros o Ho. cbn [In] in Ho.
      destruct Ho as [<-|[<-|[<-|[<-|[]]]]].
      - eapply demo_location_usable; [apply Hincl; cbn; auto|].
        apply (Hall (BuildingPlacement.Build 101 BuildingType.HOUSE (Some o1)));
          [cbn; auto | reflexivity].
      - eapply demo_location_usable; [apply Hincl; cbn; auto|].
        apply (Hall (BuildingPlacement.Build 102 BuildingType.SCHOOL (Some o2)));
          [cbn; auto | reflexivity].
      - eapply demo_location_usable; [apply Hincl; cbn; auto|].
        apply (Hall (BuildingPlacement.Build 103 BuildingType.OFFICE (Some o3)));
          [cbn; auto | reflexivity].
      - eapply demo_location_usable; [apply Hincl; cbn; auto 6|].
        apply (Hall (BuildingPlacement.Build 104 BuildingType.SHOP (Some o4)));
          [cbn; auto 6 | reflexivity]. }
    pose proof (NoDup_incl_length Hu Hin3) as Hlen. cbn in Hlen. lia.
  - exists (breakdown_value (CityPlanSolution.building_placement_list demo_best_effort)).
    split; [apply get_score_breakdown_value|].
    rewrite hard_total_value.
    cbn [demo_best_effort demo_assignment CityPlanSolution.building_placement_list
           unordered_pairs map app filter Spec.shares_location fst snd
           BuildingPlacement.location].
    eval_location_tests. reflexivity.
Qed.

(** ** The distance between two points with finite coordinates *)


(** ** The enumerations *)

Lemma BuildingType_value_injective :
  forall a b, BuildingType.value a = BuildingType.value b -> a = b.
Proof. intros [] [] H; try reflexivity; discriminate. Qed.

Lemma ZoneType_value_injective :
  forall a b, ZoneType.value a = ZoneType.value b -> a = b.
Proof. intros [] [] H; try reflexivity; discriminate. Qed.

Lemma BuildingType_of_value_Ok :
  forall v b, BuildingType.of_value v = Py.Ok b <-> v = Py.PStr (BuildingType.value b).
Proof.
  intros v b. split.
  - intro H. unfold BuildingType.of_value in H.
    destruct v; try discriminate.
    destruct (find (fun b0 => BuildingType.value b0 =? s) BuildingType.members)
      as [b'|] eqn:E; [|discriminate].
    injection H as <-. apply find_some in E. destruct E as [_ E].
    apply String.eqb_eq in E. now rewrite E.
  - intros ->. destruct b; reflexivity.
Qed.

Lemma ZoneType_of_value_Ok :
  forall v z, ZoneType.of_value v = Py.Ok z <-> v = Py.PStr (ZoneType.value z).
Proof.
  intros v z. split.
  - intro H. unfold ZoneType.of_value in H.
    destruct v; try discriminate.
    destruct (find (fun z0 => ZoneType.value z0 =? s) ZoneType.members)
      as [z'|] eqn:E; [|discriminate].
    injection H as <-. apply find_some in E. destruct E as [_ E].
    apply String.eqb_eq in E. now rewrite E.
  - intros ->. destruct z; reflexivity.
Qed.

(** X8. Looking an enumeration member up by value and reading a member's
    value are inverse to each other: [BuildingType(v)] returns [b] exactly
    when [v] is the string [b.value], and likewise for [ZoneType]; on every
    other value, of any type, the lookup raises [ValueError] and nothing
    else. *)
Theorem enum_lookup_inverts_value :
  (forall v b, BuildingType.of_value v = Py.Ok b <-> v = Py.PStr (BuildingType.value b))
  /\ (forall v z, ZoneType.of_value v = Py.Ok z <-> v = Py.PStr (ZoneType.value z))
  /\ (forall v e, BuildingType.of_value v = Py.Raise e -> e = Py.ValueError)
  /\ (forall v e, ZoneType.of_value v = Py.Raise e -> e = Py.ValueError).
Proof.
  split; [exact BuildingType_of_value_Ok|].
  split; [exact ZoneType_of_value_Ok|].
  split.
  - intros v e H. unfold BuildingType.of_value in H.
    destruct v; try (now injection H);
      destruct (find _ BuildingType.members); try discriminate; now injection H.
  - intros v e H. unfold ZoneType.of_value in H.
    destruct v; try (now injection H);
      destruct (find _ ZoneType.members); try discriminate; now injection H.
Qed.

(** ** More on building a solution from a request *)

Lemma comprehension_of_Forall2 :
  forall (A B : Type) (f : A -> Py.result B) (l : list A) (ys : list B),
    Forall2 (fun a y => f a = Py.Ok y) l ys -> Py.comprehension f l = Py.Ok ys.
Proof.
  intros A B f l ys H. induction H as [|a y l ys Ha _ IH]; [reflexivity|].
  simpl. rewrite Ha. cbn [Py.bind]. rewrite IH. reflexivity.
Qed.

Lemma comprehension_first_failure :
  forall (A B : Type) (f : A -> Py.result B) (good : list A) (bad : A) (rest : list A)
         (e : Py.pyerr),
    Forall (fun a => Py.is_ok (f a) = true) good ->
    f bad = Py.Raise e ->
    Py.comprehension f (good ++ bad :: rest) = Py.Raise e.
Proof.
  intros A B f good bad rest e Hgood Hbad.
  induction Hgood as [|a good Ha _ IH]; simpl.
  - now rewrite Hbad.
  - destruct (f a) as [y|err]; [|discriminate]. cbn [Py.bind]. now rewrite IH.
Qed.

Lemma comprehension_all_ok :
  forall (A B : Type) (f : A -> Py.result B) (l : list A),
    Forall (fun a => Py.is_ok (f a) = true) l ->
    exists ys, Py.comprehension f l = Py.Ok ys.
Proof.
  intros A B f l H. induction H as [|a l Ha _ [ys IH]]; [now exists []|].
  simpl. destruct (f a) as [y|err]; [|discriminate].
  cbn [Py.bind]. rewrite IH. now exists (y :: ys).
Qed.

Lemma comprehension_raises_what_an_item_raises :
  forall (A B : Type) (f : A -> Py.result B) (l : list A) (e : Py.pyerr),
    Py.comprehension f l = Py.Raise e -> exists a, In a l /\ f a = Py.Raise e.
Proof.
  intros A B f l e. induction l as [|a l IH]; intro H; simpl in H; [discriminate|].
  destruct (f a) as [y|err] eqn:Ea; cbn [Py.bind] in H.
  - destruct (Py.comprehension f l) as [ys|err]; cbn [Py.bind] in H; [discriminate|].
    destruct (IH H) as [b [Hb Hf]]. exists b. split; [now right | assumption].
  - exists a. split; [now left | congruence].
Qed.

Section BuilderMore.

Variable Score : Type.
Variable int_of_str : string -> option Z.
Variable float_of_str : string -> option R.

Local Abbreviation build_location := (App.build_location int_of_str float_of_str).
Local Abbreviation build_placement := (App.build_placement int_of_str).
Local Abbreviation build_solution_from_data :=
  (App.build_solution_from_data Score int_of_str float_of_str).

(** X9. On a request that is a JSON object, [build_solution_from_data]
    returns a solution exactly when every location record and every building
    record can be built; the solution then holds one location per location
    record and one placement per building record, in the order of the
    request, the request's id (or "NoNamePlan"), and no score. *)
Theorem build_solution_from_data_record_by_record :
  forall (d : list (string * Py.pyval)) (sol : CityPlanSolution.t Score),
    build_solution_from_data (Py.PDict d) = Py.Ok sol
    <-> exists locs blds,
          Py.iter (field d "locations" (Py.PList [])) = Py.Ok locs
          /\ Py.iter (field d "buildings" (Py.PList [])) = Py.Ok blds
          /\ Forall2 (fun rec l => build_location rec = Py.Ok l)
               locs (CityPlanSolution.location_list sol)
          /\ Forall2 (fun rec p => build_placement rec = Py.Ok p)
               blds (CityPlanSolution.building_placement_list sol)
          /\ CityPlanSolution.id sol = field d "id" (Py.PStr "NoNamePlan")
          /\ CityPlanSolution.score sol = None.
Proof.
  intros d sol. rewrite build_solution_from_data_dict. split.
  - intro H. bind_steps H. injection H as <-.
    cbn [CityPlanSolution.location_list CityPlanSolution.building_placement_list
           CityPlanSolution.id CityPlanSolution.score].
    do 2 eexists. split; [eassumption|]. split; [eassumption|].
    split; [now apply comprehension_Ok|]. split; [now apply comprehension_Ok|].
    split; reflexivity.
  - intros [locs [blds [Hlocs [Hblds [Hl [Hb [Hid Hscore]]]]]]].
    rewrite Hlocs. cbn [Py.bind].
    rewrite (comprehension_of_Forall2 _ _ _ _ _ Hl). cbn [Py.bind].
    rewrite Hblds. cbn [Py.bind].
    rewrite (comprehension_of_Forall2 _ _ _ _ _ Hb). cbn [Py.bind].
    destruct sol as [id ll bl sc].
    cbn [CityPlanSolution.id CityPlanSolution.score] in Hid, Hscore.
    now subst.
Qed.

(** X10. The first record that cannot be built decides the exception: the
    function raises what the first failing location record raises, whatever
    the later records and the buildings are; and when all location records
    can be built, it raises what the first failing building record raises. *)
Theorem first_failing_record_decides_the_exception :
  (forall d good bad rest e,
      Py.lookup d "locations" = Some (Py.PList (good ++ bad :: rest)) ->
      Forall (fun rec => Py.is_ok (build_location rec) = true) good ->
      build_location bad = Py.Raise e ->
      build_solution_from_data (Py.PDict d) = Py.Raise e)
  /\ (forall d locs good bad rest e,
         Py.iter (field d "locations" (Py.PList [])) = Py.Ok locs ->
         Forall (fun rec => Py.is_ok (build_location rec) = true) locs ->
         Py.lookup d "buildings" = Some (Py.PList (good ++ bad :: rest)) ->
         Forall (fun rec => Py.is_ok (build_placement rec) = true) good ->
         build_placement bad = Py.Raise e ->
         build_solution_from_data (Py.PDict d) = Py.Raise e).
Proof.
  split.
  - intros d good bad rest e Hlocs Hgood Hbad.
    rewrite build_solution_from_data_dict. unfold field at 1. rewrite Hlocs.
    cbn [Py.iter Py.bind].
    now rewrite (comprehension_first_failure _ _ _ good bad rest e Hgood Hbad).
  - intros d locs good bad rest e Hlocs Hall Hblds Hgood Hbad.
    rewrite build_solution_from_data_dict. rewrite Hlocs. cbn [Py.bind].
    destruct (comprehension_all_ok _ _ _ _ Hall) as [ll Hll]. rewrite Hll.
    cbn [Py.bind]. unfold field at 1. rewrite Hblds. cbn [Py.iter Py.bind].
    now rewrite (comprehension_first_failure _ _ _ good bad rest e Hgood Hbad).
Qed.

(** X11. A location record is read by seven keys and a building record by
    two: records that bind those keys alike are built alike, so the order of
    the keys and any further key (a "location" in a building record, say) make
    no difference. *)
Theorem records_are_read_by_key :
  (forall rec1 rec2,
      (forall k, In k location_keys -> Py.lookup rec1 k = Py.lookup rec2 k) ->
      build_location (Py.PDict rec1) = build_location (Py.PDict rec2))
  /\ (forall rec1 rec2,
         (forall k, In k building_keys -> Py.lookup rec1 k = Py.lookup rec2 k) ->
         build_placement (Py.PDict rec1) = build_placement (Py.PDict rec2)).
Proof.
  split.
  - intros rec1 rec2 H. unfold App.build_location, Py.subscript, Py.get.
    rewrite (H "id"), (H "name"), (H "x"), (H "y"), (H "zone"), (H "cost_factor"),
      (H "allowed_building_types") by (unfold location_keys; cbn [In]; auto 10).
    reflexivity.
  - intros rec1 rec2 H. unfold App.build_placement, Py.subscript.
    rewrite (H "id"), (H "building_type") by (unfold building_keys; cbn [In]; auto).
    reflexivity.
Qed.

End BuilderMore.

(** ** Which exceptions the builder raises *)

Lemma bind_Raise :
  forall (A B : Type) (c : Py.result A) (k : A -> Py.result B) (e : Py.pyerr),
    Py.bind c k = Py.Raise e ->
    c = Py.Raise e \/ exists a, c = Py.Ok a /\ k a = Py.Raise e.
Proof.
  intros A B c k e H. destruct c as [a|err]; [right | left].
  - exists a. split; [reflexivity | exact H].
  - cbn [Py.bind] in H. now injection H as ->.
Qed.

Lemma subscript_raises :
  forall v k e, Py.subscript v k = Py.Raise e -> e <> Py.AttributeError.
Proof.
  intros v k e H. unfold Py.subscript in H.
  destruct v; try (injection H as <-; discriminate).
  destruct (Py.lookup d k); [discriminate | injection H as <-; discriminate].
Qed.

Lemma int_raises :
  forall i v e, Py.int i v = Py.Raise e -> e <> Py.AttributeError.
Proof.
  intros i v e H. unfold Py.int in H.
  destruct v; try discriminate; try (injection H as <-; discriminate).
  destruct (i s); [discriminate | injection H as <-; discriminate].
Qed.

Lemma float_raises :
  forall f v e, Py.float f v = Py.Raise e -> e <> Py.AttributeError.
Proof.
  intros f v e H. unfold Py.float in H.
  destruct v; try discriminate; try (injection H as <-; discriminate).
  destruct (f s); [discriminate | injection H as <-; discriminate].
Qed.

Lemma iter_raises :
  forall v e, Py.iter v = Py.Raise e -> e = Py.TypeError.
Proof.
  intros v e H. unfold Py.iter in H.
  destruct v; try discriminate; now injection H.
Qed.

Lemma BuildingType_of_value_raises :
  forall v e, BuildingType.of_value v = Py.Raise e -> e = Py.ValueError.
Proof.
  intros v e H. unfold BuildingType.of_value in H.
  destruct v; try (now injection H);
    destruct (find _ BuildingType.members); try discriminate; now injection H.
Qed.

Lemma ZoneType_of_value_raises :
  forall v e, ZoneType.of_value v = Py.Raise e -> e = Py.ValueError.
Proof.
  intros v e H. unfold ZoneType.of_value in H.
  destruct v; try (now injection H);
    destruct (find _ ZoneType.members); try discriminate; now injection H.
Qed.

Lemma get_of_dict :
  forall v k k' default x,
    Py.subscript v k = Py.Ok x -> exists y, Py.get v k' default = Py.Ok y.
Proof.
  intros v k k' default x H. destruct v; try discriminate.
  rewrite get_field. eexists. reflexivity.
Qed.

Section BuilderExceptions.

Variable Score : Type.
Variable int_of_str : string -> option Z.
Variable float_of_str : string -> option R.

Local Abbreviation build_location := (App.build_location int_of_str float_of_str).
Local Abbreviation build_placement := (App.build_placement int_of_str).
Local Abbreviation build_solution_from_data :=
  (App.build_solution_from_data Score int_of_str float_of_str).

Ltac raise_cases H :=
  repeat (apply bind_Raise in H;
          destruct H as [H | [? [? H]]];
          [first [ now apply subscript_raises in H
                 | now apply int_raises in H
                 | now apply float_raises in H
                 | apply iter_raises in H; subst; discriminate
                 | apply ZoneType_of_value_raises in H; subst; discriminate
                 | apply BuildingType_of_value_raises in H; subst; discriminate
                 | idtac ]
          |]).

Lemma build_location_raises :
  forall rec e, build_location rec = Py.Raise e -> e <> Py.AttributeError.
Proof.
  intros rec e H. unfold App.build_location in H.
  apply bind_Raise in H. destruct H as [H | [id_raw [Hid H]]];
    [now apply subscript_raises in H|].
  destruct rec; try discriminate.
  rewrite !get_field in H. raise_cases H; try discriminate.
  apply comprehension_raises_what_an_item_raises in H.
  destruct H as [a [_ H]]. apply BuildingType_of_value_raises in H.
  subst. discriminate.
Qed.

Lemma build_placement_raises :
  forall rec e, build_placement rec = Py.Raise e -> e <> Py.AttributeError.
Proof.
  intros rec e H. unfold App.build_placement in H. raise_cases H. discriminate.
Qed.

(** X12. [build_solution_from_data] raises [AttributeError] exactly when the
    request is not a JSON object.  A key that is absent and a key bound to
    [null] are not the same: without "locations" and "buildings" the function
    returns the empty solution, while a [null] under either key raises
    [TypeError]. *)
Theorem request_shape_exceptions :
  (forall data,
      build_solution_from_data data = Py.Raise Py.AttributeError
      <-> forall d, data <> Py.PDict d)
  /\ (forall d,
         Py.lookup d "locations" = None ->
         Py.lookup d "buildings" = None ->
         build_solution_from_data (Py.PDict d)
         = Py.Ok (CityPlanSolution.Build (field d "id" (Py.PStr "NoNamePlan")) [] [] None))
  /\ (forall d,
         Py.lookup d "locations" = Some Py.PNone ->
         build_solution_from_data (Py.PDict d) = Py.Raise Py.TypeError)
  /\ (forall d,
         Py.lookup d "locations" = None ->
         Py.lookup d "buildings" = Some Py.PNone ->
         build_solution_from_data (Py.PDict d) = Py.Raise Py.TypeError).
Proof.
  split; [|split; [|split]].
  - intro data. split.
    + intros H d ->. rewrite build_solution_from_data_dict in H.
      apply bind_Raise in H. destruct H as [H | [locs [_ H]]];
        [apply iter_raises in H; discriminate|].
      apply bind_Raise in H. destruct H as [H | [ll [_ H]]].
      { apply comprehension_raises_what_an_item_raises in H.
        destruct H as [rec [_ H]]. now apply build_location_raises in H. }
      apply bind_Raise in H. destruct H as [H | [blds [_ H]]];
        [apply iter_raises in H; discriminate|].
      apply bind_Raise in H. destruct H as [H | [bl [_ H]]]; [|discriminate].
      apply comprehension_raises_what_an_item_raises in H.
      destruct H as [rec [_ H]]. now apply build_placement_raises in H.
    + intro H. destruct data; try reflexivity. exfalso. now apply (H d).
  - intros d Hl Hb. rewrite build_solution_from_data_dict.
    unfold field at 1 2. now rewrite Hl, Hb.
  - intros d Hl. rewrite build_solution_from_data_dict.
    unfold field at 1. now rewrite Hl.
  - intros d Hl Hb. rewrite build_solution_from_data_dict.
    unfold field at 1 2. now rewrite Hl, Hb.
Qed.

(** X13. The two [load_solution_from_json], of app.py and of benchmark.py,
    agree on every file: both raise the same exception, or both return
    solutions with the same locations, the same placements and no score, whose
    ids are equal unless the file has no "id", in which case the first is
    named "NoNamePlan" and the second "PlanX". *)
Theorem loaders_agree_up_to_the_default_id :
  forall (json_load : string -> Py.result Py.pyval) (path : string),
    match App.load_solution_from_json Score int_of_str float_of_str json_load path,
          Benchmark.load_solution_from_json Score int_of_str float_of_str json_load path
    with
    | Py.Ok s1, Py.Ok s2 =>
        CityPlanSolution.location_list s1 = CityPlanSolution.location_list s2
        /\ CityPlanSolution.building_placement_list s1
           = CityPlanSolution.building_placement_list s2
        /\ CityPlanSolution.score s1 = None
        /\ CityPlanSolution.score s2 = None
        /\ (CityPlanSolution.id s1 = CityPlanSolution.id s2
            \/ (CityPlanSolution.id s1 = Py.PStr "NoNamePlan"
                /\ CityPlanSolution.id s2 = Py.PStr "PlanX"))
    | Py.Raise e1, Py.Raise e2 => e1 = e2
    | _, _ => False
    end.
Proof.
  intros json_load path. unfold App.load_solution_from_json.
  destruct (json_load path) as [data|err] eqn:Hload; cbn [Py.bind].
  - destruct data;
      try (unfold Benchmark.load_solution_from_json; rewrite Hload; reflexivity).
    rewrite build_solution_from_data_dict.
    rewrite (benchmark_loader_as_builder _ _ _ _ _ d Hload).
    destruct (Py.iter (field d "locations" (Py.PList []))) as [locs|e1];
      cbn [Py.bind]; [|reflexivity].
    destruct (Py.comprehension build_location locs) as [ll|e1];
      cbn [Py.bind]; [|reflexivity].
    destruct (Py.iter (field d "buildings" (Py.PList []))) as [blds|e1];
      cbn [Py.bind]; [|reflexivity].
    destruct (Py.comprehension build_placement blds) as [bl|e1];
      cbn [Py.bind]; [|reflexivity].
    cbn [CityPlanSolution.location_list CityPlanSolution.building_placement_list
           CityPlanSolution.score CityPlanSolution.id].
    repeat split. unfold field. destruct (Py.lookup d "id"); auto.
  - unfold Benchmark.load_solution_from_json. rewrite Hload. reflexivity.
Qed.

(** X14. What [solution_to_dict] writes for a placement can be read back by
    the builder: the placement's entry is a building record that builds the
    same placement, unassigned; and the dict under its "location" key is a
    location record that builds the placement's location with all fields
    kept, except that the list of allowed building types comes back empty. *)
Theorem response_placements_can_be_read_back :
  forall bp : BuildingPlacement.t,
    build_placement (placement_json (App.placement_to_dict bp))
    = Py.Ok (BuildingPlacement.Build (BuildingPlacement.id bp)
               (BuildingPlacement.building_type bp) None)
    /\ (forall l,
           BuildingPlacement.location bp = Some l ->
           exists ld,
             App.placement_location (App.placement_to_dict bp) = Some ld
             /\ build_location (location_json ld)
                = Py.Ok (Location.Build (Location.id l) (Location.name l) (Location.x l)
                           (Location.y l) (Location.zone l) (Location.cost_factor l) [])).
Proof.
  intro bp. split.
  - unfold App.build_placement, placement_json, App.placement_to_dict.
    cbn [Py.subscript Py.lookup String.eqb Ascii.eqb Bool.eqb Py.bind Py.int
           App.placement_id App.placement_building_type].
    rewrite (proj2 (BuildingType_of_value_Ok _ (BuildingPlacement.building_type bp)) eq_refl).
    reflexivity.
  - intros l Hl. unfold App.placement_to_dict. rewrite Hl.
    cbn [App.placement_location]. eexists. split; [reflexivity|].
    unfold App.build_location, location_json.
    cbn [Py.subscript Py.get Py.lookup String.eqb Ascii.eqb Bool.eqb Py.bind Py.int
           Py.float Py.iter Py.comprehension
           App.data_id App.data_name App.data_x App.data_y App.data_zone
           App.data_cost_factor].
    rewrite (proj2 (ZoneType_of_value_Ok _ (Location.zone l)) eq_refl).
    reflexivity.
Qed.

End BuilderExceptions.

(** ** The further builder theorems at work on the samples *)

Lemma first_failing_record_decides_the_exception_witness :
  App.build_solution_from_data unit no_int_of_str no_float_of_str (Py.PDict faulty_fields)
  = Py.Raise (Py.KeyError "zone").
Proof.
  apply (proj1 (first_failing_record_decides_the_exception unit no_int_of_str
                  no_float_of_str)
           faulty_fields [Py.PDict sample_location_record] record_without_zone
           [record_without_id] (Py.KeyError "zone")).
  - reflexivity.
  - constructor; [reflexivity | constructor].
  - reflexivity.
Defined.

Lemma records_are_read_by_key_witness :
  App.build_placement no_int_of_str
    (Py.PDict [ ("location", Py.PInt 1); ("building_type", Py.PStr "SHOP");
                ("id", Py.PInt 9) ])
  = App.build_placement no_int_of_str
      (Py.PDict [ ("id", Py.PInt 9); ("building_type", Py.PStr "SHOP") ]).
Proof.
  apply (proj2 (records_are_read_by_key no_int_of_str no_float_of_str)).
  intros k Hk. unfold building_keys in Hk. cbn [In] in Hk.
  destruct Hk as [<-|[<-|[]]]; reflexivity.
Defined.

(** ** The soft penalties as sums over houses, schools and offices *)








(** ** The distance on floats with infinities and NaN *)












(** ** The soft blocks on floats, and on finite data *)







(** ** Signs of the penalties, and a soft penalty that is not a number *)



